(** * Restaurant finder: a shallow embedding of [main.py]

    The script queries a places-search API around a geographic point,
    keeps the genuine restaurants, filters them by rating and review
    thresholds, ranks them by a composite score and prints the best ones.

    Conventions of the embedding.
    - A JSON object returned by the API is a record whose fields are
      [option]s: [None] stands for an absent key, so that every
      [d.get(k, default)] of the source is a [default] applied to a field.
    - A Python [float] is modelled by the exact rational value ([Q]) of the
      double it holds, so that comparisons are exact.  The first part of
      the file computes with these values exactly: the composite score,
      which goes through [math.log10], is there the real number ([R]) that
      the formula denotes.  Module [Generic] gives the functions whose
      result depends on the rounding of an operation a second time, with
      the double-precision operations they call as parameters;
      [PyNum.binary64] is the rounding to the nearest double and
      [PyNum.mul] the product of two doubles.
    - A Python [str] is modelled by the [string] of the bytes of its UTF-8
      encoding, every code point being encoded on its own (a lone surrogate
      on three bytes): substring tests, [split] at a comma and comparisons
      then agree with Python's, and characters are counted by their leading
      bytes.
      [PyStr.lower], [PyStr.title], [PyNum.strip] and [PyNum.float] model
      [str.lower], [str.title], [str.strip] and [float()] on ASCII text;
      module [Generic] takes these four builtins as parameters.
    - [print], [time.sleep] and [requests.get] become events of an explicit
      trace; [sys.exit] becomes an explicit exit status. *)

From Stdlib Require Import ZArith QArith Qround Reals Lra Lia List Bool Ascii String.
From Stdlib Require Import Sorting.Permutation Sorting.Sorted.
From Stdlib Require Import Qminmax Qreals Rpower.
From stdpp Require Import base decidable countable strings gmap list.
From Equations Require Import Equations.
Import ListNotations.

#[local] Open Scope string_scope.
#[local] Open Scope list_scope.

(** ** Python strings *)

Module PyStr.

(** [c.lower()] on one ASCII character. *)
Definition lower_ascii (c : ascii) : ascii :=
  let n := nat_of_ascii c in
  if (65 <=? n)%nat && (n <=? 90)%nat then ascii_of_nat (n + 32) else c.

(** [s.lower()] on ASCII text: other characters are left as they are. *)
Fixpoint lower (s : string) : string :=
  match s with
  | EmptyString => EmptyString
  | String c s' => String (lower_ascii c) (lower s')
  end.

(** [s.startswith(p)]. *)
Fixpoint startswith (p s : string) : bool :=
  match p, s with
  | EmptyString, _ => true
  | String _ _, EmptyString => false
  | String a p', String b s' => Ascii.eqb a b && startswith p' s'
  end.

(** [needle in hay] for two strings. *)
Fixpoint contains (needle hay : string) : bool :=
  startswith needle hay ||
  match hay with
  | EmptyString => false
  | String _ hay' => contains needle hay'
  end.

Definition is_upper (c : ascii) : bool :=
  let n := nat_of_ascii c in (65 <=? n)%nat && (n <=? 90)%nat.

Definition is_lower (c : ascii) : bool :=
  let n := nat_of_ascii c in (97 <=? n)%nat && (n <=? 122)%nat.

Definition upper_ascii (c : ascii) : ascii :=
  if is_lower c then ascii_of_nat (nat_of_ascii c - 32) else c.

(** [s.title()] on ASCII text, [cased] telling whether the previous
    character was a letter. *)
Fixpoint title_from (cased : bool) (s : string) : string :=
  match s with
  | EmptyString => EmptyString
  | String c s' =>
      String (if cased then lower_ascii c else upper_ascii c)
             (title_from (is_upper c || is_lower c) s')
  end.

Definition title (s : string) : string := title_from false s.

(** A byte that continues a character of several bytes (10xxxxxx). *)
Definition is_continuation (c : ascii) : bool :=
  let n := nat_of_ascii c in (128 <=? n)%nat && (n <? 192)%nat.

(** [len(s)]: the number of characters. *)
Fixpoint len (s : string) : nat :=
  match s with
  | EmptyString => 0
  | String c s' => if is_continuation c then len s' else S (len s')
  end.

(** [s[:n]] for a natural number [n]: the first [n] characters. *)
Fixpoint take (n : nat) (s : string) : string :=
  match s with
  | EmptyString => EmptyString
  | String c s' =>
      if is_continuation c then String c (take n s')
      else
        match n with
        | 0 => EmptyString
        | S n' => String c (take n' s')
        end
  end.

(** Truth value of a string: the empty string is falsy. *)
Definition truthy (s : string) : bool :=
  match s with EmptyString => false | String _ _ => true end.

(** Truth value of an optional string ([None] is falsy). *)
Definition truthy_opt (o : option string) : bool :=
  match o with None => false | Some s => truthy s end.

End PyStr.

(** ** Data model *)

(** One element of the [results] array of a response. *)
Record place := Place {
  name : option string;
  rating : option Q;
  user_ratings_total : option Z;
  vicinity : option string;
  types : option (list string)
}.

(** [d.get(k, dflt)]. *)
Definition get {A : Type} (field : option A) (dflt : A) : A :=
  match field with Some v => v | None => dflt end.

Definition RESTAURANT_TYPES : gset string :=
  {[ "restaurant"; "meal_delivery"; "meal_takeaway" ]}.

Definition EXCLUDE_TYPES : gset string :=
  {[ "lodging"; "hotel"; "motel"; "gas_station";
     "grocery_or_supermarket"; "convenience_store" ]}.

Definition restaurant_keywords : list string :=
  [ "restaurant"; "grill"; "kitchen"; "bistro"; "cafe";
    "diner"; "eatery"; "steakhouse"; "pizzeria"; "sushi" ].

(** Truth value of a set: non-empty. *)
Definition nonempty (s : gset string) : bool := bool_decide (s ≠ ∅).

Definition is_true_restaurant (p : place) : bool :=
  let place_types : gset string := list_to_set (get (types p) []) in
  if nonempty (place_types ∩ EXCLUDE_TYPES) then false
  else if nonempty (place_types ∩ RESTAURANT_TYPES) then true
  else
    let name_lower := PyStr.lower (get (name p) EmptyString) in
    existsb (fun keyword => PyStr.contains keyword name_lower) restaurant_keywords.


(** ** Python numbers *)

Module PyNum.

(** [int(x)] on a float: truncation towards zero. *)
Definition int (x : Q) : Z := Z.quot (Qnum x) (Z.pos (Qden x)).

(** [math.log10]. *)
Definition log10 (x : R) : R := (ln x / ln 10)%R.

(** [a < b] on scores, as a boolean. *)
Definition Rltb (a b : R) : bool := if Rlt_dec a b then true else false.

(** The values [float(s)] can produce. *)
Inductive pyfloat :=
| Finite (q : Q)
| Infinity (negative : bool)
| NaN.

(** [lo <= x <= hi] for finite bounds; false for [nan] and infinities. *)
Definition between (lo : Q) (x : pyfloat) (hi : Q) : bool :=
  match x with
  | Finite q => Qle_bool lo q && Qle_bool q hi
  | Infinity _ | NaN => false
  end.

Definition value (x : pyfloat) : Q :=
  match x with Finite q => q | Infinity _ | NaN => 0 end.

(** [a < b], [a <= b] and [a == b] on floats: false as soon as one side is
    [nan]. *)
Definition lt (a b : pyfloat) : bool :=
  match a, b with
  | Finite x, Finite y => negb (Qle_bool y x)
  | Finite _, Infinity negative => negb negative
  | Infinity negative, Finite _ => negative
  | Infinity n1, Infinity n2 => n1 && negb n2
  | _, _ => false
  end.

Definition le (a b : pyfloat) : bool :=
  match a, b with
  | Finite x, Finite y => Qle_bool x y
  | Finite _, Infinity negative => negb negative
  | Infinity negative, Finite _ => negative
  | Infinity n1, Infinity n2 => n1 || negb n2
  | _, _ => false
  end.

Definition eqb (a b : pyfloat) : bool :=
  match a, b with
  | Finite x, Finite y => Qeq_bool x y
  | Infinity n1, Infinity n2 => Bool.eqb n1 n2
  | _, _ => false
  end.

(** *** Double precision

    A double is a sign, 53 significant bits and a binary exponent between
    -1022 and 1023. *)

(** [2^e <= n / d] for positive [n] and [d]. *)
Definition reaches (e n d : Z) : bool :=
  if (0 <=? e)%Z then (2 ^ e * d <=? n)%Z else (d <=? n * 2 ^ (- e))%Z.

(** The binary exponent of [n / d], for positive [n] and [d]: the [e] with
    [2^e <= n / d < 2^(e+1)]. *)
Definition binary_exponent (n d : Z) : Z :=
  let e := (Z.log2 n - Z.log2 d)%Z in
  if reaches e n d then e else (e - 1)%Z.

(** The integer nearest to [n / d], the even one of the two at a tie. *)
Definition nearest_even (n d : Z) : Z :=
  let q := (n / d)%Z in
  let r := (n mod d)%Z in
  match (2 * r ?= d)%Z with
  | Lt => q
  | Gt => (q + 1)%Z
  | Eq => if Z.even q then q else (q + 1)%Z
  end.

(** The double nearest to the positive rational [n / d], or [None] when it
    is beyond the largest double: the quotient is rounded to a multiple of
    [2^u], where [u] leaves 53 bits above it and is at least -1074. *)
Definition nearest_double (n d : Z) : option Q :=
  let u := (Z.max (binary_exponent n d) (- 1022) - 52)%Z in
  let m :=
    if (0 <=? u)%Z then nearest_even n (d * 2 ^ u) else nearest_even (n * 2 ^ (- u)) d in
  if (0 <=? u)%Z then
    if (2 ^ 1024 <=? m * 2 ^ u)%Z then None else Some (inject_Z (m * 2 ^ u))
  else Some (Qred (m # Z.to_pos (2 ^ (- u)))).

(** The double that a real result [q] is rounded to (round to nearest, ties
    to even); an infinity when [q] is out of range. *)
Definition binary64 (q : Q) : pyfloat :=
  match Qnum q with
  | Z0 => Finite 0
  | Zpos n =>
      match nearest_double (Zpos n) (Zpos (Qden q)) with
      | Some x => Finite x
      | None => Infinity false
      end
  | Zneg n =>
      match nearest_double (Zpos n) (Zpos (Qden q)) with
      | Some x => Finite (- x)
      | None => Infinity true
      end
  end.

(** [a * b] on doubles: the exact product, rounded. *)
Definition mul (a b : Q) : pyfloat := binary64 (a * b).

Definition is_digit (c : ascii) : bool :=
  let n := nat_of_ascii c in (48 <=? n)%nat && (n <=? 57)%nat.

Definition digit (c : ascii) : Z := Z.of_nat (nat_of_ascii c) - 48.

(** The ASCII characters removed by [str.strip()]. *)
Definition is_space (c : ascii) : bool :=
  let n := nat_of_ascii c in
  (n =? 32)%nat || ((9 <=? n)%nat && (n <=? 13)%nat) ||
  ((28 <=? n)%nat && (n <=? 31)%nat).

Fixpoint lstrip (s : string) : string :=
  match s with
  | String c s' => if is_space c then lstrip s' else s
  | EmptyString => EmptyString
  end.

Fixpoint rstrip (s : string) : string :=
  match s with
  | String c s' =>
      let r := rstrip s' in
      if is_space c && negb (PyStr.truthy r) then EmptyString else String c r
  | EmptyString => EmptyString
  end.

Definition strip (s : string) : string := rstrip (lstrip s).

(** A run [digit (["_"] digit)*]: the value read after [acc], the number
    of digits read after [n], and the rest of the input. *)
Fixpoint digitpart (s : string) (acc : Z) (n : nat) : Z * nat * string :=
  match s with
  | String c s' =>
      if is_digit c then digitpart s' (10 * acc + digit c)%Z (S n)
      else if Ascii.eqb c "_" && (0 <? n)%nat then
        match s' with
        | String d _ => if is_digit d then digitpart s' acc n else (acc, n, s)
        | EmptyString => (acc, n, s)
        end
      else (acc, n, s)
  | EmptyString => (acc, n, s)
  end.

(** [m * 10^e]. *)
Definition scale (m e : Z) : Q :=
  if (0 <=? e)%Z then inject_Z (m * 10 ^ e) else m # Z.to_pos (10 ^ (- e)).

(** An optional exponent followed by the end of the input. *)
Definition exponent (s : string) : option Z :=
  match s with
  | EmptyString => Some 0%Z
  | String c s' =>
      if Ascii.eqb c "e" || Ascii.eqb c "E" then
        let '(neg, s'') :=
          match s' with
          | String "+" r => (false, r)
          | String "-" r => (true, r)
          | _ => (false, s')
          end in
        let '(e, ne, rest) := digitpart s'' 0 0 in
        if (ne =? 0)%nat || PyStr.truthy rest then None
        else Some (if neg then - e else e)%Z
      else None
  end.

(** An unsigned decimal literal: [digits], [digits.], [.digits] or
    [digits.digits], with an optional exponent. *)
Definition floatnumber (s : string) : option Q :=
  let '(i, ni, r1) := digitpart s 0 0 in
  let '(m, nf, r2) :=
    match r1 with
    | String "." r => digitpart r i 0
    | _ => (i, 0%nat, r1)
    end in
  if (ni + nf =? 0)%nat then None
  else
    match exponent r2 with
    | Some e => Some (scale m (e - Z.of_nat nf))
    | None => None
    end.

Definition unsigned (s : string) : option pyfloat :=
  let l := PyStr.lower s in
  if String.eqb l "inf" || String.eqb l "infinity" then Some (Infinity false)
  else if String.eqb l "nan" then Some NaN
  else
    match floatnumber s with
    | Some q => Some (Finite q)
    | None => None
    end.

Definition negate (x : pyfloat) : pyfloat :=
  match x with
  | Finite q => Finite (- q)
  | Infinity b => Infinity (negb b)
  | NaN => NaN
  end.

(** [float(s)] on ASCII text, where every decimal literal is read as the
    number it denotes; [None] when Python raises [ValueError]. *)
Definition float (s : string) : option pyfloat :=
  match strip s with
  | String "+" r => unsigned r
  | String "-" r =>
      match unsigned r with Some x => Some (negate x) | None => None end
  | r => unsigned r
  end.

End PyNum.

(** ** Python containers *)

Module PyList.

(** [s.split(sep)] for a one-character separator. *)
Fixpoint split (sep : ascii) (s : string) : list string :=
  match s with
  | EmptyString => [EmptyString]
  | String c s' =>
      if Ascii.eqb c sep then EmptyString :: split sep s'
      else
        match split sep s' with
        | w :: ws => String c w :: ws
        | [] => [String c EmptyString]
        end
  end.

(** [l[:n]], where a negative [n] counts from the end. *)
Definition slice_to {A : Type} (l : list A) (n : Z) : list A :=
  if (0 <=? n)%Z then firstn (Z.to_nat n) l
  else firstn (List.length l - Z.to_nat (- n)) l.

Section Sorted.
Context {A K : Type}.
(** [lt a b]: the key [a] is strictly less than the key [b]. *)
Variable lt : K -> K -> bool.
Variable key : A -> K.
Variable reverse : bool.

(** [goes_first x y]: [x] has to come strictly before [y] in the
    result, whatever their positions in the input. *)
Definition goes_first (x y : A) : bool :=
  if reverse then lt (key y) (key x) else lt (key x) (key y).

(** Insertion of [x], which stood before every element of [s] in the
    input, into the sorted list [s]: [x] passes exactly the elements
    that go first. *)
Fixpoint insert (x : A) (s : list A) : list A :=
  match s with
  | [] => [x]
  | y :: s' => if goes_first y x then y :: insert x s' else x :: s
  end.

(** [sorted(l, key=key, reverse=reverse)]: a stable sort; with
    [reverse] the order is descending and elements with equal keys
    still keep their input order. *)
Definition sorted (l : list A) : list A := fold_right insert [] l.
End Sorted.

(** [k in d] and [d[k]] for a dict given by its items. *)
Fixpoint lookup {V : Type} (k : string) (d : list (string * V)) : option V :=
  match d with
  | [] => None
  | (k', v) :: d' => if String.eqb k k' then Some v else lookup k d'
  end.

Definition keys {V : Type} (d : list (string * V)) : list string := map fst d.

End PyList.

(** ** Effects: printed lines, requests, delays and exits *)

(** The display label of a resolved location. *)
Inductive label :=
| LabelText (s : string)
| LabelCoords (lat lng : Q).        (* f"({lat:.4f}, {lng:.4f})" *)

(** The [ValueError]s caught while parsing coordinates. *)
Inductive value_error :=
| CoordinatesFormat                 (* "Coordinates must be in format: lat,lng" *)
| InvalidRange                      (* "Invalid coordinate range" *)
| CouldNotConvert (token : string). (* raised by float() *)

Module Params.
(** The query parameters of one request. *)
Record t := Make {
  key : string;
  type : string;
  keyword : string;
  location : option (Q * Q);
  radius : option Z;
  pagetoken : option string
}.
End Params.

Module Response.
(** The JSON body of a response. *)
Record t := Make {
  status : option string;
  error_message : option string;
  results : option (list place);
  next_page_token : option string
}.
End Response.

(** What [requests.get(...)], [raise_for_status()] and [json()] give. *)
Inductive http_result :=
| RequestException (e : string)
| Json (data : Response.t).

(** One constructor per [print] call of the script; the arguments are the
    interpolated values. *)
Inductive message :=
| ErrorParsingCoordinates (e : value_error)
| CityNotFound (city : string)
| AvailableCities (cities : string)
| CoordsHint
| RadiusCapped                      (* "  Note: Radius capped at 31 miles (API limit)" *)
| FetchingPage (n : nat)            (* "  Fetching page {n}/3..." *)
| RequestFailed (e : string)        (* "Error: API request failed: {e}" *)
| StatusWarning (status : option string)
| Details (error_message : string)
| FilteredOut (n : nat)
| LocationLine (location_name : label) (lat lng : Q)
| Searching (radius : Q)
| Retrieved (n : nat)
| RestaurantsNear (location_name : label)
| SearchRadius (radius_miles : Q)
| Filters (min_rating : Q) (min_reviews : Z)
| FetchedMatched (total_fetched matched : nat)
| Rule
| NoRestaurantsFound
| TryAdjusting
| SuggestReviews (n : Z)            (* f"  --reviews {n}" *)
| SuggestRating (r : Q)             (* f"  --rating {r:.1f}" *)
| SuggestRadius (r : Q)             (* f"  --radius {r}" *)
| Top (n : Z)
| EntryName (idx : nat) (name : string)
| EntryRating (rating : Q) (review_count : Z)
| EntryType (types : string)
| EntryLocation (address : string)
| Blank.

Inductive event :=
| Print (m : message)
| Sleep (seconds : Z)
| HttpGet (params : Params.t).

Definition trace := list event.

(** How a call ends: it returns a value or the process exits. *)
Inductive completion (A : Type) :=
| Returned (a : A)
| Exited (code : Z).
Arguments Returned {A} a.
Arguments Exited {A} code.

(** ** Geocoder *)

Definition CITY_COORDINATES : list (string * (Q * Q)) :=
  [ ("seattle", (476062 # 10000, - (1223321 # 10000)));
    ("san francisco", (377749 # 10000, - (1224194 # 10000)));
    ("los angeles", (340522 # 10000, - (1182437 # 10000)));
    ("new york", (407128 # 10000, - (740060 # 10000)));
    ("chicago", (418781 # 10000, - (876298 # 10000)));
    ("austin", (302672 # 10000, - (977431 # 10000)));
    ("portland", (455152 # 10000, - (1226784 # 10000)));
    ("miami", (257617 # 10000, - (801918 # 10000)));
    ("boston", (423601 # 10000, - (710589 # 10000)));
    ("denver", (397392 # 10000, - (1049903 # 10000)));
    ("atlanta", (337490 # 10000, - (843880 # 10000)));
    ("dallas", (327767 # 10000, - (967970 # 10000)));
    ("houston", (297604 # 10000, - (953698 # 10000)));
    ("philadelphia", (399526 # 10000, - (751652 # 10000)));
    ("phoenix", (334484 # 10000, - (1120740 # 10000)));
    ("san diego", (327157 # 10000, - (1171611 # 10000)));
    ("washington dc", (389072 # 10000, - (770369 # 10000)));
    ("las vegas", (361699 # 10000, - (1151398 # 10000)));
    ("nashville", (361627 # 10000, - (867816 # 10000)));
    ("new orleans", (299511 # 10000, - (900715 # 10000))) ].

(** The body of the [try] block: a value or the [ValueError] raised. *)
Definition parse_coords (coords : string) : value_error + (Q * Q * label) :=
  match PyList.split "," coords with
  | [p0; p1] =>
      match PyNum.float (PyNum.strip p0) with
      | None => inl (CouldNotConvert (PyNum.strip p0))
      | Some lat =>
          match PyNum.float (PyNum.strip p1) with
          | None => inl (CouldNotConvert (PyNum.strip p1))
          | Some lng =>
              if negb (PyNum.between (- (90 # 1)) lat (90 # 1))
                 || negb (PyNum.between (- (180 # 1)) lng (180 # 1))
              then inl InvalidRange
              else inr (PyNum.value lat, PyNum.value lng,
                        LabelCoords (PyNum.value lat) (PyNum.value lng))
          end
      end
  | _ => inl CoordinatesFormat
  end.

Definition get_location (city coords : option string)
  : trace * completion (Q * Q * label) :=
  if PyStr.truthy_opt coords then
    match parse_coords (get coords EmptyString) with
    | inr loc => ([], Returned loc)
    | inl e => ([Print (ErrorParsingCoordinates e)], Exited 1)
    end
  else if PyStr.truthy_opt city then
    let city := get city EmptyString in
    let city_lower := PyStr.lower city in
    match PyList.lookup city_lower CITY_COORDINATES with
    | None =>
        ([ Print (CityNotFound city);
           Print (AvailableCities
                    (String.concat ", "
                       (PyList.sorted String.ltb (fun k => k) false
                          (PyList.keys CITY_COORDINATES))));
           Print CoordsHint ],
         Exited 1)
    | Some (lat, lng) => ([], Returned (lat, lng, LabelText (PyStr.title city)))
    end
  else
    match PyList.lookup "seattle" CITY_COORDINATES with
    | Some (lat, lng) => ([], Returned (lat, lng, LabelText "Seattle"))
    | None => ([], Exited 1)          (* KeyError: unreachable *)
    end.

(** ** Paginator / fetcher *)

Definition miles_to_meters (miles : Q) : Z := PyNum.int (miles * (160934 # 100)).

(** The variables of [fetch_all_restaurants] that the loop updates, the
    events emitted so far, and the number of requests already sent. *)
Record loop_state := LoopState {
  all_restaurants : list place;
  next_page_token : option string;
  page_count : nat;
  log : trace;
  sent : nat
}.

(** Matching on a value while keeping the equation that defines it. *)
Definition inspect {A : Type} (x : A) : {y : A | x = y} := exist _ x eq_refl.

(** How one pass through the body of the [while] loop ends. *)
Inductive loop_exit :=
| Break (st : loop_state)
| Continue (st : loop_state).

Section Fetcher.
(** The remote API: the answer to the request number [n] (from 0) as a
    function of its parameters. *)
Variable api : nat -> Params.t -> http_result.
Variables (lat lng : Q) (radius_meters : Z) (api_key : string).

Definition page_params (st : loop_state) : Params.t :=
  if (page_count st =? 0)%nat then
    Params.Make api_key "restaurant" "restaurant"
                (Some (lat, lng)) (Some radius_meters) None
  else
    Params.Make api_key "restaurant" "restaurant"
                None None (next_page_token st).

(** Events emitted before the request is sent. *)
Definition page_prelude (st : loop_state) : trace :=
  if (page_count st =? 0)%nat then []
  else [Print (FetchingPage (page_count st + 1)); Sleep 2].

Definition status_ok (status : option string) : bool :=
  match status with
  | Some s => String.eqb s "OK" || String.eqb s "ZERO_RESULTS"
  | None => false
  end.

Definition loop_body (st : loop_state) : loop_exit :=
  let params := page_params st in
  let log1 := log st ++ page_prelude st ++ [HttpGet params] in
  match api (sent st) params with
  | RequestException e =>
      Break (LoopState (all_restaurants st) (next_page_token st)
               (page_count st) (log1 ++ [Print (RequestFailed e)]) (S (sent st)))
  | Json data =>
      if negb (status_ok (Response.status data)) then
        Break (LoopState (all_restaurants st) (next_page_token st)
                 (page_count st)
                 (log1 ++ [Print (StatusWarning (Response.status data))]
                       ++ (if PyStr.truthy_opt (Response.error_message data)
                           then [Print (Details (get (Response.error_message data)
                                                     EmptyString))]
                           else []))
                 (S (sent st)))
      else
        let results := get (Response.results data) [] in
        let true_restaurants := List.filter is_true_restaurant results in
        let log2 :=
          log1 ++ (if (List.length true_restaurants <? List.length results)%nat
                   then [Print (FilteredOut (List.length results
                                             - List.length true_restaurants))]
                   else []) in
        let all := all_restaurants st ++ true_restaurants in
        let token := Response.next_page_token data in
        if negb (PyStr.truthy_opt token) then
          Break (LoopState all token (page_count st) log2 (S (sent st)))
        else
          Continue (LoopState all token (page_count st + 1) log2 (S (sent st)))
  end.

(** [while page_count < 3: ...] *)
Equations? while_loop (st : loop_state) : loop_state
  by wf (3 - page_count st)%nat lt :=
  while_loop st with inspect (page_count st <? 3)%nat := {
    | exist _ false _ := st
    | exist _ true Hguard with inspect (loop_body st) := {
        | exist _ (Break st') _ := st'
        | exist _ (Continue st') Hbody := while_loop st' } }.
Proof.
  apply Nat.ltb_lt in Hguard.
  unfold loop_body in Hbody.
  destruct (api _ _); [discriminate|].
  destruct (negb (status_ok _)); [discriminate|].
  destruct (negb (PyStr.truthy_opt _)); [discriminate|].
  injection Hbody as <-. simpl. lia.
Qed.

End Fetcher.

Definition fetch_all_restaurants (api : nat -> Params.t -> http_result)
    (lat lng radius_miles : Q) (api_key : string) : trace * list place :=
  let radius_meters := miles_to_meters radius_miles in
  let '(radius_meters, log0) :=
    if (50000 <? radius_meters)%Z then (50000%Z, [Print RadiusCapped])
    else (radius_meters, []) in
  let st := while_loop api lat lng radius_meters api_key
                       (LoopState [] None 0 log0 0) in
  (log st, all_restaurants st).

(** ** Ranker *)

Definition calculate_score (restaurant : place) : R :=
  let rating := get (rating restaurant) 0%Q in
  let reviews := get (user_ratings_total restaurant) 1%Z in
  (Q2R rating ^ 2 * PyNum.log10 (IZR (Z.max reviews 1)))%R.

(** The condition of the list comprehension. *)
Definition meets_thresholds (min_rating : Q) (min_reviews : Z) (r : place) : bool :=
  Qle_bool min_rating (get (rating r) 0%Q)
  && (min_reviews <=? get (user_ratings_total r) 0)%Z.

Definition filter_and_rank_restaurants (restaurants : list place)
    (min_rating : Q) (min_reviews : Z) : list place :=
  let filtered := List.filter (meets_thresholds min_rating min_reviews) restaurants in
  PyList.sorted PyNum.Rltb calculate_score true filtered.

(** ** Presenter *)

Definition generic_types : list string :=
  [ "point_of_interest"; "establishment"; "food" ].

(** The lines printed for one restaurant. *)
Definition display_entry (show_types : bool) (idx : nat) (restaurant : place) : trace :=
  let name := get (name restaurant) "Unknown" in
  let rating := get (rating restaurant) 0%Q in
  let review_count := get (user_ratings_total restaurant) 0%Z in
  let address := get (vicinity restaurant) "Address not available" in
  [ Print (EntryName idx name); Print (EntryRating rating review_count) ]
  ++ (if show_types then
        let types := get (types restaurant) [] in
        let relevant_types :=
          List.filter (fun t => negb (existsb (String.eqb t) generic_types)) types in
        match relevant_types with
        | [] => []
        | _ => [Print (EntryType (String.concat ", " (firstn 3 relevant_types)))]
        end
      else [])
  ++ [ Print (EntryLocation
                (if (60 <? PyStr.len address)%nat
                 then PyStr.take 57 address ++ "..."
                 else address));
       Print Blank ].

(** [enumerate(l, idx)] followed by the body of the [for] loop. *)
Fixpoint display_entries (show_types : bool) (idx : nat) (l : list place) : trace :=
  match l with
  | [] => []
  | r :: l' => display_entry show_types idx r ++ display_entries show_types (S idx) l'
  end.

(** [MAX_DISPLAY] is the global that [main] overwrites with [--limit]. *)
Definition display_results (MAX_DISPLAY : Z) (restaurants : list place)
    (location_name : label) (radius_miles min_rating : Q) (min_reviews : Z)
    (total_fetched : nat) (show_types : bool) : trace :=
  [ Print (RestaurantsNear location_name);
    Print (SearchRadius radius_miles);
    Print (Filters min_rating min_reviews);
    Print (FetchedMatched total_fetched (List.length restaurants));
    Print Rule ]
  ++ match restaurants with
     | [] =>
         [ Print NoRestaurantsFound;
           Print TryAdjusting;
           Print (SuggestReviews (min_reviews / 2));
           Print (SuggestRating (Qmax (min_rating - (2 # 10)) (3 # 1)));
           Print (SuggestRadius (Qmin (radius_miles + (10 # 1)) (31 # 1))) ]
     | _ =>
         [ Print (Top (Z.min (Z.of_nat (List.length restaurants)) MAX_DISPLAY)) ]
         ++ display_entries show_types 1 (PyList.slice_to restaurants MAX_DISPLAY)
     end.

(** ** The whole run *)

(** The namespace returned by [parse_arguments]. *)
Record arguments := Arguments {
  args_api_key : string;
  args_city : option string;
  args_coords : option string;
  args_radius : Q;
  args_rating : Q;
  args_reviews : Z;
  args_show_types : bool;
  args_limit : Z
}.

(** [main], after the command line has been parsed. *)
Definition main (api : nat -> Params.t -> http_result) (args : arguments)
  : trace * completion unit :=
  match get_location (args_city args) (args_coords args) with
  | (out, Exited code) => (out, Exited code)
  | (out, Returned (lat, lng, location_name)) =>
      let '(fetch_log, all_restaurants) :=
        fetch_all_restaurants api lat lng (args_radius args) (args_api_key args) in
      let filtered_restaurants :=
        filter_and_rank_restaurants all_restaurants (args_rating args) (args_reviews args) in
      (out
       ++ [ Print (LocationLine location_name lat lng);
            Print (Searching (args_radius args));
            Print (FetchingPage 1) ]
       ++ fetch_log
       ++ [ Print (Retrieved (List.length all_restaurants)) ]
       ++ display_results (args_limit args) filtered_restaurants location_name
            (args_radius args) (args_rating args) (args_reviews args)
            (List.length all_restaurants) (args_show_types args),
       Returned tt)
  end.

(** The messages [parser.error] is called with; each call prints the usage
    to the error stream and exits with status 2. *)
Inductive usage_error :=
| RadiusOutOfRange                  (* "Radius must be between 0.1 and 31 miles" *)
| RatingOutOfRange                  (* "Rating must be between 0 and 5" *)
| NegativeReviews.                  (* "Review count must be non-negative" *)

(** The checks [parse_arguments] runs on the namespace that
    [parser.parse_args()] returns, in their order. *)
Definition validate_arguments (args : arguments) : usage_error + arguments :=
  if negb (Qle_bool (1 # 10) (args_radius args)
           && Qle_bool (args_radius args) (31 # 1))
  then inl RadiusOutOfRange
  else if negb (Qle_bool (0 # 1) (args_rating args)
                && Qle_bool (args_rating args) (5 # 1))
  then inl RatingOutOfRange
  else if (args_reviews args <? 0)%Z then inl NegativeReviews
  else inr args.

(** ** The same functions over the builtins they call

    The functions above whose result can depend on how Python rounds a
    number or folds a character outside ASCII are given here a second time,
    word for word, with the builtins as parameters.  No property of the
    builtins is assumed. *)

(** The string builtins and [float()]. *)
Record builtins := Builtins {
  str_lower : string -> string;                    (* s.lower() *)
  str_title : string -> string;                    (* s.title() *)
  str_strip : string -> string;                    (* s.strip() *)
  float_of_str : string -> option PyNum.pyfloat    (* float(s), None: ValueError *)
}.

(** The models of the first part, exact on ASCII text. *)
Definition ascii_builtins : builtins :=
  Builtins PyStr.lower PyStr.title PyNum.strip PyNum.float.

Module Generic.

Section StringBuiltins.
Variable B : builtins.

Definition is_true_restaurant (p : place) : bool :=
  let place_types : gset string := list_to_set (get (types p) []) in
  if nonempty (place_types ∩ EXCLUDE_TYPES) then false
  else if nonempty (place_types ∩ RESTAURANT_TYPES) then true
  else
    let name_lower := str_lower B (get (name p) EmptyString) in
    existsb (fun keyword => PyStr.contains keyword name_lower) restaurant_keywords.

Definition parse_coords (coords : string) : value_error + (Q * Q * label) :=
  match PyList.split "," coords with
  | [p0; p1] =>
      match float_of_str B (str_strip B p0) with
      | None => inl (CouldNotConvert (str_strip B p0))
      | Some lat =>
          match float_of_str B (str_strip B p1) with
          | None => inl (CouldNotConvert (str_strip B p1))
          | Some lng =>
              if negb (PyNum.between (- (90 # 1)) lat (90 # 1))
                 || negb (PyNum.between (- (180 # 1)) lng (180 # 1))
              then inl InvalidRange
              else inr (PyNum.value lat, PyNum.value lng,
                        LabelCoords (PyNum.value lat) (PyNum.value lng))
          end
      end
  | _ => inl CoordinatesFormat
  end.

Definition get_location (city coords : option string)
  : trace * completion (Q * Q * label) :=
  if PyStr.truthy_opt coords then
    match parse_coords (get coords EmptyString) with
    | inr loc => ([], Returned loc)
    | inl e => ([Print (ErrorParsingCoordinates e)], Exited 1)
    end
  else if PyStr.truthy_opt city then
    let city := get city EmptyString in
    let city_lower := str_lower B city in
    match PyList.lookup city_lower CITY_COORDINATES with
    | None =>
        ([ Print (CityNotFound city);
           Print (AvailableCities
                    (String.concat ", "
                       (PyList.sorted String.ltb (fun k => k) false
                          (PyList.keys CITY_COORDINATES))));
           Print CoordsHint ],
         Exited 1)
    | Some (lat, lng) => ([], Returned (lat, lng, LabelText (str_title B city)))
    end
  else
    match PyList.lookup "seattle" CITY_COORDINATES with
    | Some (lat, lng) => ([], Returned (lat, lng, LabelText "Seattle"))
    | None => ([], Exited 1)          (* KeyError: unreachable *)
    end.

End StringBuiltins.

(** [int(x)] on a double: truncation towards zero; an infinity raises
    [OverflowError] and [nan] raises [ValueError] ([None]). *)
Definition int (x : PyNum.pyfloat) : option Z :=
  match x with
  | PyNum.Finite q => Some (PyNum.int q)
  | PyNum.Infinity _ | PyNum.NaN => None
  end.

(** The double that the literal [1609.34] denotes. *)
Definition METERS_PER_MILE : Q := 7077952172180111 # 4398046511104.

Section Conversion.
(** [a * b] on doubles. *)
Variable mul : Q -> Q -> PyNum.pyfloat.

Definition miles_to_meters (miles : Q) : option Z := int (mul miles METERS_PER_MILE).

(** [None] when the conversion raises, which is before anything is printed
    or requested.  The loop is the one of the first part. *)
Definition fetch_all_restaurants (api : nat -> Params.t -> http_result)
    (lat lng radius_miles : Q) (api_key : string) : option (trace * list place) :=
  match miles_to_meters radius_miles with
  | None => None
  | Some radius_meters =>
      let '(radius_meters, log0) :=
        if (50000 <? radius_meters)%Z then (50000%Z, [Print RadiusCapped])
        else (radius_meters, []) in
      let st := while_loop api lat lng radius_meters api_key
                           (LoopState [] None 0 log0 0) in
      Some (log st, all_restaurants st)
  end.

End Conversion.

Section Score.
(** [x ** 2] as the double that enters the product ([None] when the power,
    or the conversion of the power of an [int] to a double, raises
    [OverflowError]); [math.log10(n)] for an [int] [n >= 1]; and [a * b] on
    doubles. *)
Variable pow2 : Q -> option Q.
Variable log10 : Z -> Q.
Variable mul : Q -> Q -> PyNum.pyfloat.

(** [None] when the score raises. *)
Definition calculate_score (restaurant : place) : option PyNum.pyfloat :=
  let rating := get (rating restaurant) 0%Q in
  let reviews := get (user_ratings_total restaurant) 1%Z in
  match pow2 rating with
  | None => None
  | Some square => Some (mul square (log10 (Z.max reviews 1)))
  end.

(** The keys that [sorted] computes, one for each item and in the order of
    the list, before it compares any two of them; [None] as soon as the key
    of an item raises. *)
Fixpoint decorate (l : list place) : option (list (PyNum.pyfloat * place)) :=
  match l with
  | [] => Some []
  | r :: l' =>
      match calculate_score r with
      | None => None
      | Some k =>
          match decorate l' with
          | None => None
          | Some d => Some ((k, r) :: d)
          end
      end
  end.

(** [None] when a key raises.  The keys are compared with [<]; none of them
    is [nan], as the product of two finite doubles is finite or an
    infinity, and on such keys a stable sort has one possible result. *)
Definition filter_and_rank_restaurants (restaurants : list place)
    (min_rating : Q) (min_reviews : Z) : option (list place) :=
  let filtered := List.filter (meets_thresholds min_rating min_reviews) restaurants in
  match decorate filtered with
  | None => None
  | Some d => Some (map snd (PyList.sorted PyNum.lt fst true d))
  end.

End Score.

End Generic.

(** * Vocabulary of the specification *)

(** ** Classifier *)

(** [keyword] occurs in [s]. *)
Definition occurs (keyword s : string) : Prop :=
  exists pre post, s = (pre ++ keyword ++ post)%string.

(** ** Ranker *)

(** [in_order lt key reverse a b]: nothing forces [b] before [a] in the
    result of [sorted]. *)
Definition in_order {A K : Type} (lt : K -> K -> bool) (key : A -> K)
    (reverse : bool) (a b : A) : Prop :=
  PyList.goes_first lt key reverse b a = false.

(** [a] may stand before [b] in a descending ranking: both have a score
    and that of [b] is at most that of [a]. *)
Definition descending (score : place -> option PyNum.pyfloat) (a b : place) : Prop :=
  exists x y, score a = Some x /\ score b = Some y /\ PyNum.le y x = true.

(** The items whose score equals [k]. *)
Definition scored (score : place -> option PyNum.pyfloat) (k : PyNum.pyfloat)
    (r : place) : bool :=
  match score r with
  | Some x => PyNum.eqb x k
  | None => false
  end.

(** The order [sorted] leaves the ranked items in. *)
Definition ranked_before (a b : place) : Prop :=
  (calculate_score a >= calculate_score b)%R.



(** ** Paginator / fetcher *)

(** The requests sent during a run, in order. *)
Fixpoint requests_of (t : trace) : list Params.t :=
  match t with
  | [] => []
  | HttpGet p :: t' => p :: requests_of t'
  | _ :: t' => requests_of t'
  end.

(** The requests and delays of a run, without the printed lines. *)
Fixpoint timeline (t : trace) : trace :=
  match t with
  | [] => []
  | Print _ :: t' => timeline t'
  | e :: t' => e :: timeline t'
  end.

(** How many times the clamp notice is printed. *)
Fixpoint clamp_notices (t : trace) : nat :=
  match t with
  | [] => 0
  | Print RadiusCapped :: t' => S (clamp_notices t')
  | _ :: t' => clamp_notices t'
  end.

(** What the log shows after a request that stops the loop on an error:
    the failure of the transport, or the rejected status followed by the
    detail message when there is one. *)
Definition failure_report (r : http_result) : trace :=
  match r with
  | RequestException e => [Print (RequestFailed e)]
  | Json d =>
      Print (StatusWarning (Response.status d))
      :: (if PyStr.truthy_opt (Response.error_message d)
          then [Print (Details (get (Response.error_message d) EmptyString))]
          else [])
  end.

(** A response that makes the fetch fail: no response at all, or a status
    other than "OK" and "ZERO_RESULTS". *)
Definition failed (r : http_result) : Prop :=
  match r with
  | RequestException _ => True
  | Json d => Response.status d <> Some "OK" /\ Response.status d <> Some "ZERO_RESULTS"
  end.

(** The restaurants a page contributes. *)
Definition page_items (r : http_result) : list place :=
  match r with
  | RequestException _ => []
  | Json d =>
      if status_ok (Response.status d)
      then List.filter is_true_restaurant (get (Response.results d) [])
      else []
  end.

(** The parameters of the first request. *)
Definition first_params (lat lng : Q) (radius_meters : Z) (api_key : string)
  : Params.t :=
  Params.Make api_key "restaurant" "restaurant"
              (Some (lat, lng)) (Some radius_meters) None.

(** The parameters of a request for a further page. *)
Definition next_params (api_key : string) (token : option string) : Params.t :=
  Params.Make api_key "restaurant" "restaurant" None None token.

(** The token to go on with, when the response lets the loop go on. *)
Definition continues (r : http_result) : option (option string) :=
  match r with
  | RequestException _ => None
  | Json d =>
      if status_ok (Response.status d)
         && PyStr.truthy_opt (Response.next_page_token d)
      then Some (Response.next_page_token d)
      else None
  end.

(** The requests and responses exchanged from request number [k] on, when
    at most [n] pages remain. *)
Fixpoint exchanges (api : nat -> Params.t -> http_result) (api_key : string)
    (n k : nat) (p : Params.t) : list (Params.t * http_result) :=
  match n with
  | 0 => []
  | S n' =>
      (p, api k p)
      :: match continues (api k p) with
         | Some token => exchanges api api_key n' (S k) (next_params api_key token)
         | None => []
         end
  end.

(** The lines printed once the response is there. *)
Definition report (r : http_result) : trace :=
  match r with
  | RequestException _ => failure_report r
  | Json d =>
      if status_ok (Response.status d) then
        let results := get (Response.results d) [] in
        let true_restaurants := List.filter is_true_restaurant results in
        if (List.length true_restaurants <? List.length results)%nat
        then [Print (FilteredOut (List.length results - List.length true_restaurants))]
        else []
      else failure_report r
  end.

(** The events that precede request number [k]. *)
Definition prelude (k : nat) : trace :=
  if (k =? 0)%nat then [] else [Print (FetchingPage (k + 1)); Sleep 2].

(** The events of the exchanges, the first of which is request number [k]. *)
Fixpoint render (k : nat) (ex : list (Params.t * http_result)) : trace :=
  match ex with
  | [] => []
  | (p, r) :: ex' => prelude k ++ [HttpGet p] ++ report r ++ render (S k) ex'
  end.

(** The restaurants contributed by the pages requested with [reqs], the
    first of which is request number [k]. *)
Fixpoint items_of_pages (api : nat -> Params.t -> http_result)
    (k : nat) (reqs : list Params.t) : list place :=
  match reqs with
  | [] => []
  | q :: reqs' => page_items (api k q) ++ items_of_pages api (S k) reqs'
  end.

(** The requests and delays of a run that sends [reqs], request number [k]
    first: a delay of 2 before every request but request number 0. *)
Fixpoint schedule (k : nat) (reqs : list Params.t) : trace :=
  match reqs with
  | [] => []
  | q :: reqs' =>
      (if (k =? 0)%nat then [] else [Sleep 2]) ++ HttpGet q :: schedule (S k) reqs'
  end.

(** A request for a further page: it carries a continuation token. *)
Definition paged (p : Params.t) : Prop :=
  PyStr.truthy_opt (Params.pagetoken p) = true /\ Params.location p = None
  /\ Params.radius p = None.

(** The radius of the first request. *)
Definition request_radius (radius_miles : Q) : Z :=
  Z.min (miles_to_meters radius_miles) 50000.

(** ** Presenter *)

(** The block printed when nothing matches: the reviews threshold halved,
    the rating threshold lowered by 0.2 but not below 3.0, the radius
    raised by 10 but not above 31. *)
Definition guidance (radius_miles min_rating : Q) (min_reviews : Z) : trace :=
  [ Print NoRestaurantsFound;
    Print TryAdjusting;
    Print (SuggestReviews (min_reviews / 2));
    Print (SuggestRating (Qmax (min_rating - (2 # 10)) (3 # 1)));
    Print (SuggestRadius (Qmin (radius_miles + (10 # 1)) (31 # 1))) ].

(** ** Sample data *)

(** A run in which the first page carries a token and the second does not. *)
Definition two_page_api (n : nat) (p : Params.t) : http_result :=
  match n with
  | 0 => Json (Response.Make (Some "OK") None
                 (Some [ Place (Some "Joe's Grill") (Some (48 # 10)) (Some 1000%Z)
                               None (Some ["bar"]);
                         Place (Some "Harbour Inn") None None None
                               (Some ["lodging"; "restaurant"]) ])
                 (Some "token-2"))
  | _ => Json (Response.Make (Some "ZERO_RESULTS") None None None)
  end.

(** A run in which the second request is rejected by the API. *)
Definition rejecting_api (n : nat) (p : Params.t) : http_result :=
  match n with
  | 0 => two_page_api 0 p
  | _ => Json (Response.Make (Some "OVER_QUERY_LIMIT") (Some "quota exceeded") None None)
  end.

(** The encodings of three accented letters, and an address of 60
    characters. *)
Definition e_acute : string := String "195" (String "169" EmptyString).
Definition E_acute : string := String "195" (String "137" EmptyString).
Definition I_circumflex : string := String "195" (String "142" EmptyString).

Definition accented_address : string :=
  ("1 Rue de la Libert" ++ e_acute ++ ", Quartier Saint-" ++ E_acute
   ++ "tienne, 7501 Paris, " ++ I_circumflex ++ "le")%string.

(** Two places whose scores are equal as real numbers,
    [4.8^2 * log10 512 = 3.6^2 * log10 65536], and differ as doubles.  The
    ratings are the doubles that [4.8] and [3.6] denote. *)
Definition harbour_grill : place :=
  Place (Some "Harbour Grill") (Some (5404319552844595 # 1125899906842624))
        (Some 512%Z) None (Some ["restaurant"]).

Definition garden_bistro : place :=
  Place (Some "Garden Bistro") (Some (8106479329266893 # 2251799813685248))
        (Some 65536%Z) None (Some ["restaurant"]).

(** [x ** 2] where the nearest double is returned. *)
Definition nearest_pow2 (x : Q) : option Q :=
  match PyNum.binary64 (x * x) with
  | PyNum.Finite y => Some y
  | _ => None
  end.

(** The doubles nearest to [log10 512] and to [log10 65536], and 0
    elsewhere. *)
Definition sample_log10 (n : Z) : Q :=
  match n with
  | 512%Z => 6100733593348415 # 2251799813685248
  | 65536%Z => 5422874305198591 # 1125899906842624
  | _ => 0
  end.

Definition newcomer : place :=
  Place (Some "Newcomer Diner") (Some (5 # 1)) (Some 1%Z) None (Some ["restaurant"]).

Definition unrated : place :=
  Place (Some "Corner Cafe") (Some (49 # 10)) None None (Some ["restaurant"]).

Definition favourite : place :=
  Place (Some "Joe's Grill") (Some (48 # 10)) (Some 1000%Z) None (Some ["restaurant"]).

(** ** Reading a trace *)

(** The seconds spent in [time.sleep] during a run. *)
Fixpoint total_sleep (t : trace) : Z :=
  match t with
  | [] => 0
  | Sleep seconds :: t' => seconds + total_sleep t'
  | _ :: t' => total_sleep t'
  end.

(** The sum of the counts reported as filtered out. *)
Fixpoint filtered_out_total (t : trace) : nat :=
  match t with
  | [] => 0
  | Print (FilteredOut n) :: t' => n + filtered_out_total t'
  | _ :: t' => filtered_out_total t'
  end.

(** The numbered names of the listing. *)
Fixpoint entry_names (t : trace) : list (nat * string) :=
  match t with
  | [] => []
  | Print (EntryName idx name) :: t' => (idx, name) :: entry_names t'
  | _ :: t' => entry_names t'
  end.

(** The addresses of the listing, as printed. *)
Fixpoint entry_locations (t : trace) : list string :=
  match t with
  | [] => []
  | Print (EntryLocation address) :: t' => address :: entry_locations t'
  | _ :: t' => entry_locations t'
  end.

(** The numbers of restaurants announced above the listing. *)
Fixpoint announced (t : trace) : list Z :=
  match t with
  | [] => []
  | Print (Top n) :: t' => n :: announced t'
  | _ :: t' => announced t'
  end.

(** The relaxed thresholds suggested to the user: reviews, rating, radius. *)
Fixpoint suggestions (t : trace) : list (Z * Q * Q) :=
  match t with
  | Print (SuggestReviews n) :: Print (SuggestRating r) :: Print (SuggestRadius d) :: t' =>
      (n, r, d) :: suggestions t'
  | _ :: t' => suggestions t'
  | [] => []
  end.

(** The counts of the header: retrieved, then fetched and matched. *)
Fixpoint counts (t : trace) : list (nat * nat) :=
  match t with
  | [] => []
  | Print (FetchedMatched total matched) :: t' => (total, matched) :: counts t'
  | _ :: t' => counts t'
  end.

(** The number of results of a page that was answered successfully. *)
Definition page_size (r : http_result) : nat :=
  match r with
  | RequestException _ => 0
  | Json d =>
      if status_ok (Response.status d)
      then List.length (get (Response.results d) [])
      else 0
  end.

(** The number of results of the pages requested with [reqs], the first of
    which is request number [k]. *)
Fixpoint results_total (api : nat -> Params.t -> http_result)
    (k : nat) (reqs : list Params.t) : nat :=
  match reqs with
  | [] => 0
  | q :: reqs' => page_size (api k q) + results_total api (S k) reqs'
  end.

(** Two places that differ at most in their type tags. *)
Definition same_but_types (a b : place) : Prop :=
  name a = name b /\ rating a = rating b
  /\ user_ratings_total a = user_ratings_total b /\ vicinity a = vicinity b.

(** The rating and the review count used for the score. *)
Definition score_rating (r : place) : Q := get (rating r) (0 # 1).
Definition score_reviews (r : place) : Z := get (user_ratings_total r) 1%Z.

(** The string is empty or begins at the first byte of a character. *)
Definition starts_character (s : string) : Prop :=
  match s with
  | EmptyString => True
  | String c _ => PyStr.is_continuation c = false
  end.

(** How an address is printed: as it is when it has at most 60 characters,
    otherwise cut to its first 57 characters followed by three dots.
    Characters are counted, not the bytes of their encoding, and the cut
    falls between two characters. *)
Definition printed_as (address shown : string) : Prop :=
  (PyStr.len shown <= 60)%nat
  /\ ((PyStr.len address <= 60)%nat -> shown = address)
  /\ ((60 < PyStr.len address)%nat ->
      exists head tail,
        PyStr.len head = 57%nat
        /\ address = (head ++ tail)%string
        /\ starts_character tail
        /\ shown = (head ++ "...")%string).

(** An event the presenter and the geocoder can emit: a printed line other
    than the clamp notice. *)
Definition plain_line (e : event) : Prop :=
  match e with
  | Print RadiusCapped => False
  | Print (FilteredOut _) => False
  | Print _ => True
  | Sleep _ | HttpGet _ => False
  end.

(** [p] with its name replaced. *)
Definition rename (p : place) (new_name : string) : place :=
  Place (Some new_name) (rating p) (user_ratings_total p) (vicinity p) (types p).

(** The number of occurrences of a character in a string. *)
Fixpoint count_char (c : ascii) (s : string) : nat :=
  match s with
  | EmptyString => 0
  | String x s' => (if Ascii.eqb x c then 1 else 0) + count_char c s'
  end.

(** A value [float] reads that is not a number one can compare with:
    [nan] or an infinity. *)
Definition not_finite (x : PyNum.pyfloat) : Prop :=
  match x with PyNum.Finite _ => False | _ => True end.

(** * Properties *)

(** ** The embedding on sample inputs *)

(** For the double that [20.00012427454733] denotes the conversion gives
    32186 meters, where the product of the two decimal numbers truncates to
    32187; the conversion of 1e306 miles raises. *)
Example meters_rounded_down :
  Generic.miles_to_meters PyNum.mul (5629534514388435 # 281474976710656)
  = Some 32186%Z
  /\ PyNum.int ((2000012427454733 # 100000000000000) * (160934 # 100)) = 32187%Z.
Proof. split; vm_compute; reflexivity. Qed.

Example meters_overflow :
  Generic.miles_to_meters PyNum.mul
    (inject_Z 1000000000000000017216064596736454828831087825013238982328892017892380671244575047987920451875459594568606138861698291060311049225532948520696938805711440650122628514669428460356992624968028329550689224175284346730060716088829214255439694630119794546505512415617982143262670862918816362862119154749127262208)
  = None.
Proof. vm_compute. reflexivity. Qed.

(** An address of 60 characters, three of them accented and encoded on two
    bytes each, is printed whole; one more character and it is cut after
    its 57th character. *)
Example accented_address_printed_whole :
  PyStr.len accented_address = 60%nat
  /\ String.length accented_address = 63%nat
  /\ entry_locations
       (display_entry false 1 (Place None None None (Some accented_address) None))
     = [accented_address]
  /\ entry_locations
       (display_entry false 1
          (Place None None None (Some (accented_address ++ "s")%string) None))
     = [("1 Rue de la Libert" ++ e_acute ++ ", Quartier Saint-" ++ E_acute
         ++ "tienne, 7501 Paris, " ++ "...")%string].
Proof. repeat split; vm_compute; reflexivity. Qed.

Example float_decimal : PyNum.float " 47.6 " = Some (PyNum.Finite (476 # 10)).
Proof. reflexivity. Qed.

Example float_exponent : PyNum.float "-1_0.5e-1" = Some (PyNum.Finite (- (105 # 100))).
Proof. reflexivity. Qed.

Example float_infinity : PyNum.float "-Inf" = Some (PyNum.Infinity true).
Proof. reflexivity. Qed.

Example float_rejects_words : PyNum.float "extra" = None.
Proof. reflexivity. Qed.

Example split_three : PyList.split "," "47.6,-122.3,extra" = ["47.6"; "-122.3"; "extra"].
Proof. reflexivity. Qed.

Example split_empty : PyList.split "," EmptyString = [EmptyString].
Proof. reflexivity. Qed.

Example title_words : PyStr.title "new YORK" = "New York".
Proof. reflexivity. Qed.

Example meters_of_31_miles : miles_to_meters (31 # 1) = 49889%Z.
Proof. reflexivity. Qed.

Example meters_truncate_towards_zero : miles_to_meters (- (1 # 2)) = (-804)%Z.
Proof. reflexivity. Qed.

Example sorted_strings :
  PyList.sorted String.ltb (fun k => k) false ["pear"; "apple"; "fig"]
  = ["apple"; "fig"; "pear"].
Proof. reflexivity. Qed.

Example sorted_reverse_is_stable :
  PyList.sorted Z.ltb fst true [(1, "a"); (2, "b"); (1, "c"); (2, "d")]%Z
  = [(2, "b"); (2, "d"); (1, "a"); (1, "c")]%Z.
Proof. reflexivity. Qed.

Example city_is_resolved :
  get_location (Some "new YORK") None
  = ([], Returned (407128 # 10000, - (740060 # 10000), LabelText "New York")).
Proof. reflexivity. Qed.

Example three_pages_at_most :
  List.length
    (requests_of
       (fst (fetch_all_restaurants
               (fun _ _ => Json (Response.Make (Some "OK") None (Some [])
                                               (Some "again")))
               (1 # 1) (2 # 1) (20 # 1) "key"))) = 3%nat.
Proof. vm_compute. reflexivity. Qed.

(** ** Strings *)

Section StringFacts.

Lemma startswith_iff p s :
  PyStr.startswith p s = true <-> exists post, s = (p ++ post)%string.
Proof.
  revert s. induction p as [|a p IH]; intros s; simpl.
  - split; eauto.
  - destruct s as [|b s].
    + split; [discriminate | intros [post H]; discriminate].
    + rewrite andb_true_iff, Ascii.eqb_eq, IH. split.
      * intros [-> [post ->]]. eauto.
      * intros [post [= -> ->]]. eauto.
Qed.

Lemma contains_iff needle hay :
  PyStr.contains needle hay = true <->
  exists pre post, hay = (pre ++ needle ++ post)%string.
Proof.
  induction hay as [|c hay IH]; simpl.
  - rewrite orb_false_r, startswith_iff. split.
    + intros [post ->]. exists EmptyString, post. reflexivity.
    + intros [pre [post H]]. destruct pre; [eauto | discriminate].
  - rewrite orb_true_iff, startswith_iff, IH. split.
    + intros [[post ->] | [pre [post ->]]].
      * exists EmptyString, post. reflexivity.
      * exists (String c pre), post. reflexivity.
    + intros [pre [post H]]. destruct pre as [|d pre]; simpl in H.
      * left. eauto.
      * injection H as -> ->. right. eauto.
Qed.

Lemma lower_app a b :
  PyStr.lower (a ++ b)%string = (PyStr.lower a ++ PyStr.lower b)%string.
Proof. induction a as [|c a IH]; simpl; [reflexivity | now rewrite IH]. Qed.

End StringFacts.

(** ** Classifier *)


Lemma nonempty_intersection (tags : list string) (S : gset string) :
  nonempty (list_to_set tags ∩ S) = true <-> exists t, In t tags /\ t ∈ S.
Proof.
  unfold nonempty. rewrite bool_decide_eq_true. split.
  - intros H. apply set_choose_L in H as [t Ht].
    apply elem_of_intersection in Ht as [Ht1 Ht2].
    apply elem_of_list_to_set, list_elem_of_In in Ht1. eauto.
  - intros (t & Ht1 & Ht2) Hempty.
    assert (t ∈ (list_to_set tags ∩ S : gset string)) as Hin.
    { apply elem_of_intersection. split; [|assumption].
      apply elem_of_list_to_set, list_elem_of_In. assumption. }
    rewrite Hempty in Hin. exact (not_elem_of_empty t Hin).
Qed.

Lemma EXCLUDE_TYPES_elems t :
  t ∈ EXCLUDE_TYPES <->
  In t [ "lodging"; "hotel"; "motel"; "gas_station";
         "grocery_or_supermarket"; "convenience_store" ].
Proof.
  unfold EXCLUDE_TYPES. rewrite !elem_of_union, !elem_of_singleton.
  simpl. intuition congruence.
Qed.

Lemma RESTAURANT_TYPES_elems t :
  t ∈ RESTAURANT_TYPES <-> In t [ "restaurant"; "meal_delivery"; "meal_takeaway" ].
Proof.
  unfold RESTAURANT_TYPES. rewrite !elem_of_union, !elem_of_singleton.
  simpl. intuition congruence.
Qed.

(** The classifier of the first part is the generic one at the ASCII
    builtins. *)
Lemma is_true_restaurant_ascii (p : place) :
  Generic.is_true_restaurant ascii_builtins p = is_true_restaurant p.
Proof. reflexivity. Qed.

(** C3. [is_true_restaurant] is a function of the item alone.  An item
    whose type tags meet the deny set is rejected whatever its other tags
    and its name are; otherwise it is accepted when a tag is in the allow
    set; otherwise it is accepted exactly when one of the ten keywords
    occurs in its name once [str.lower] has folded the case of the name.
    This holds whatever [str.lower] does to the characters of the name. *)
Theorem is_true_restaurant_spec (B : builtins) (p : place) :
  let tags := get (types p) [] in
  let denied := exists t, In t tags /\
      In t [ "lodging"; "hotel"; "motel"; "gas_station";
             "grocery_or_supermarket"; "convenience_store" ] in
  let allowed := exists t, In t tags /\
      In t [ "restaurant"; "meal_delivery"; "meal_takeaway" ] in
  let named := exists keyword,
      In keyword [ "restaurant"; "grill"; "kitchen"; "bistro"; "cafe";
                   "diner"; "eatery"; "steakhouse"; "pizzeria"; "sushi" ] /\
      occurs keyword (str_lower B (get (name p) EmptyString)) in
  (denied -> Generic.is_true_restaurant B p = false) /\
  (~ denied -> allowed -> Generic.is_true_restaurant B p = true) /\
  (~ denied -> ~ allowed -> (Generic.is_true_restaurant B p = true <-> named)).
Proof.
  intros tags denied allowed named.
  assert (Hd : nonempty (list_to_set tags ∩ EXCLUDE_TYPES) = true <-> denied).
  { rewrite nonempty_intersection. unfold denied.
    split; intros (t & H1 & H2); exists t; split; auto;
      now apply EXCLUDE_TYPES_elems. }
  assert (Ha : nonempty (list_to_set tags ∩ RESTAURANT_TYPES) = true <-> allowed).
  { rewrite nonempty_intersection. unfold allowed.
    split; intros (t & H1 & H2); exists t; split; auto;
      now apply RESTAURANT_TYPES_elems. }
  assert (Hn : existsb (fun keyword =>
                 PyStr.contains keyword (str_lower B (get (name p) EmptyString)))
                 restaurant_keywords = true <-> named).
  { rewrite existsb_exists. unfold named, occurs.
    split; intros (k & Hin & Hk); exists k; split; auto; now apply contains_iff. }
  unfold Generic.is_true_restaurant. fold tags.
  destruct (nonempty (list_to_set tags ∩ EXCLUDE_TYPES)).
  - assert denied by now apply Hd.
    repeat split; intros; try reflexivity; contradiction.
  - assert (~ denied) by (intros H; apply Hd in H; discriminate).
    destruct (nonempty (list_to_set tags ∩ RESTAURANT_TYPES)).
    + assert allowed by now apply Ha.
      repeat split; intros; try reflexivity; contradiction.
    + assert (~ allowed) by (intros H'; apply Ha in H'; discriminate).
      repeat split; intros; try contradiction; now apply Hn.
Qed.

Lemma is_true_restaurant_spec_witness :
  Generic.is_true_restaurant ascii_builtins
    (Place (Some "Harbour Inn") None None None (Some ["lodging"; "restaurant"])) = false
  /\ Generic.is_true_restaurant ascii_builtins
       (Place (Some "Joe's") None None None (Some ["bar"; "meal_takeaway"])) = true
  /\ Generic.is_true_restaurant ascii_builtins
       (Place (Some "Sam's SUSHI bar") None None None (Some ["bar"])) = true.
Proof.
  split; [|split].
  - apply (proj1 (is_true_restaurant_spec ascii_builtins _)).
    exists "lodging". simpl. auto.
  - apply (proj1 (proj2 (is_true_restaurant_spec ascii_builtins _))).
    + intros (t & Ht & Hd). simpl in Ht, Hd.
      destruct Ht as [<- | [<- | []]]; intuition discriminate.
    + exists "meal_takeaway". simpl. auto.
  - apply (proj2 (proj2 (is_true_restaurant_spec ascii_builtins _))).
    + intros (t & Ht & Hd). simpl in Ht, Hd.
      destruct Ht as [<- | []]; intuition discriminate.
    + intros (t & Ht & Hd). simpl in Ht, Hd.
      destruct Ht as [<- | []]; intuition discriminate.
    + exists "sushi". split; [simpl; tauto|].
      exists "sam's ", " bar". reflexivity.
Defined.

(** ** The model of [sorted] *)

Section SortedFacts.
Context {A K : Type}.
Variable lt : K -> K -> bool.
Variable key : A -> K.
Variable reverse : bool.

#[local] Abbreviation goes_first := (PyList.goes_first lt key reverse).
#[local] Abbreviation insert := (PyList.insert lt key reverse).
#[local] Abbreviation sorted := (PyList.sorted lt key reverse).

Lemma insert_perm x s : Permutation (insert x s) (x :: s).
Proof.
  induction s as [|y s IH]; simpl; [reflexivity|].
  destruct (goes_first y x); [|reflexivity].
  rewrite IH. apply perm_swap.
Qed.

Lemma sorted_perm l : Permutation (sorted l) l.
Proof.
  induction l as [|x l IH]; simpl; [reflexivity|].
  rewrite insert_perm. now apply perm_skip.
Qed.

(** Stability: a class of elements none of which goes first before
    another one comes out in its input order. *)
Lemma insert_filter (P : A -> bool) x s :
  (forall a b, P a = true -> P b = true -> goes_first a b = false) ->
  List.filter P (insert x s) = List.filter P (x :: s).
Proof.
  intros HP. induction s as [|y s IH]; simpl; [reflexivity|].
  destruct (goes_first y x) eqn:E; simpl; [|reflexivity].
  simpl in IH. rewrite IH.
  destruct (P y) eqn:Ey, (P x) eqn:Ex; try reflexivity.
  rewrite (HP y x Ey Ex) in E. discriminate.
Qed.

Lemma sorted_filter (P : A -> bool) l :
  (forall a b, P a = true -> P b = true -> goes_first a b = false) ->
  List.filter P (sorted l) = List.filter P l.
Proof.
  intros HP. induction l as [|x l IH]; simpl; [reflexivity|].
  rewrite (insert_filter P x _ HP). simpl. now rewrite IH.
Qed.

Hypothesis lt_asym : forall a b, lt a b = true -> lt b a = false.
Hypothesis lt_negtrans :
  forall a b c, lt a b = false -> lt b c = false -> lt a c = false.

Lemma goes_first_asym a b : goes_first a b = true -> goes_first b a = false.
Proof. unfold PyList.goes_first. destruct reverse; apply lt_asym. Qed.

Lemma goes_first_negtrans a b c :
  goes_first a b = false -> goes_first b c = false -> goes_first a c = false.
Proof.
  unfold PyList.goes_first. destruct reverse; intros H1 H2.
  - exact (lt_negtrans _ _ _ H2 H1).
  - exact (lt_negtrans _ _ _ H1 H2).
Qed.


Lemma insert_in_order x s :
  StronglySorted (in_order lt key reverse) s -> StronglySorted (in_order lt key reverse) (insert x s).
Proof.
  induction s as [|y s IH]; intros Hs; simpl.
  - constructor; constructor.
  - apply StronglySorted_inv in Hs as [Hs Hy].
    destruct (goes_first y x) eqn:E.
    + constructor; [auto|].
      apply (Permutation_Forall (Permutation_sym (insert_perm x s))).
      constructor; [|assumption].
      now apply goes_first_asym.
    + constructor; [constructor; assumption|].
      constructor; [exact E|].
      eapply List.Forall_impl; [|exact Hy].
      intros z Hz. unfold in_order in *.
      eapply goes_first_negtrans; eassumption.
Qed.

Lemma sorted_in_order l : StronglySorted (in_order lt key reverse) (sorted l).
Proof.
  induction l as [|x l IH]; simpl; [constructor|].
  now apply insert_in_order.
Qed.

End SortedFacts.


(** ** Ranker *)

Section ScoreFacts.
#[local] Open Scope R_scope.

Lemma ln_10_pos : 0 < ln 10.
Proof. rewrite <- ln_1. apply ln_increasing; lra. Qed.

Lemma log10_1 : PyNum.log10 1 = 0.
Proof. unfold PyNum.log10. rewrite ln_1. unfold Rdiv. apply Rmult_0_l. Qed.

Lemma log10_pos x : 1 < x -> 0 < PyNum.log10 x.
Proof.
  intros Hx. unfold PyNum.log10. apply Rdiv_lt_0_compat; [|apply ln_10_pos].
  rewrite <- ln_1. apply ln_increasing; lra.
Qed.

Lemma log10_1000 : PyNum.log10 1000 = 3.
Proof.
  unfold PyNum.log10. replace 1000 with (10 ^ 3) by (simpl; lra).
  rewrite ln_pow by lra. simpl INR.
  pose proof ln_10_pos. field. lra.
Qed.

Lemma IZR_max n m : IZR (Z.max n m) = Rmax (IZR n) (IZR m).
Proof.
  destruct (Z.max_spec n m) as [[H ->] | [H ->]].
  - symmetry. apply Rmax_right. apply IZR_le. lia.
  - symmetry. apply Rmax_left. apply IZR_le. lia.
Qed.

Lemma Rltb_true a b : PyNum.Rltb a b = true <-> a < b.
Proof. unfold PyNum.Rltb. destruct (Rlt_dec a b); split; auto; discriminate. Qed.

Lemma Rltb_false a b : PyNum.Rltb a b = false <-> b <= a.
Proof.
  unfold PyNum.Rltb. destruct (Rlt_dec a b); split; auto; try discriminate; lra.
Qed.

Lemma Rltb_asym a b : PyNum.Rltb a b = true -> PyNum.Rltb b a = false.
Proof. rewrite Rltb_true, Rltb_false. lra. Qed.

Lemma Rltb_negtrans a b c :
  PyNum.Rltb a b = false -> PyNum.Rltb b c = false -> PyNum.Rltb a c = false.
Proof. rewrite !Rltb_false. lra. Qed.

Lemma calculate_score_nonneg p : 0 <= calculate_score p.
Proof.
  unfold calculate_score. apply Rmult_le_pos; [apply pow2_ge_0|].
  rewrite IZR_max. unfold PyNum.log10.
  apply Rmult_le_pos; [|left; apply Rinv_0_lt_compat, ln_10_pos].
  unfold Rmax. destruct (Rle_dec _ _) as [H | H].
  - rewrite ln_1. lra.
  - rewrite <- ln_1. left. apply ln_increasing; lra.
Qed.

End ScoreFacts.

(** C1. The composite score of an item is [rating^2 * log10(max(reviews, 1))],
    a missing rating counting as 0 and a missing review count as 1; for a
    rating of 4.8 and 1000 reviews this is 69.12. *)
Theorem calculate_score_formula :
  (forall p : place,
     let rating := match rating p with Some q => Q2R q | None => 0%R end in
     let reviews := match user_ratings_total p with Some n => IZR n | None => 1%R end in
     calculate_score p = (rating * rating * (ln (Rmax reviews 1) / ln 10))%R)
  /\ (forall nm addr tags,
        calculate_score (Place nm (Some (48 # 10)) (Some 1000%Z) addr tags)
        = 69.12%R).
Proof.
  split.
  - intros p. unfold calculate_score, PyNum.log10.
    rewrite IZR_max.
    destruct (rating p) as [q|], (user_ratings_total p) as [n|]; simpl;
      rewrite ?RMicromega.Q2R_0; ring.
  - intros nm addr tags. unfold calculate_score. simpl get.
    change (Z.max 1000 1) with 1000%Z. rewrite log10_1000.
    unfold Q2R. simpl. lra.
Qed.


Lemma meets_thresholds_iff min_rating min_reviews r :
  meets_thresholds min_rating min_reviews r = true <->
  (min_rating <= get (rating r) 0)%Q /\
  (min_reviews <= get (user_ratings_total r) 0)%Z.
Proof.
  unfold meets_thresholds.
  rewrite andb_true_iff, Qle_bool_iff, Z.leb_le. reflexivity.
Qed.

Lemma ranked_sorted l :
  StronglySorted ranked_before (PyList.sorted PyNum.Rltb calculate_score true l).
Proof.
  pose proof (sorted_in_order PyNum.Rltb calculate_score true
                Rltb_asym Rltb_negtrans l) as H.
  induction H as [|a s Hs IH Ha]; constructor; [assumption|].
  eapply List.Forall_impl; [|exact Ha].
  intros b Hb. unfold in_order, PyList.goes_first in Hb.
  apply Rltb_false in Hb. unfold ranked_before. lra.
Qed.


(** *** With the rounding of the double operations *)

Section SortedOn.
Context {A K : Type}.
Variable lt : K -> K -> bool.
Variable key : A -> K.
Variable reverse : bool.
(** The keys on which [lt] is a strict weak order. *)
Variable good : K -> Prop.

Hypothesis lt_asym :
  forall a b, good a -> good b -> lt a b = true -> lt b a = false.
Hypothesis lt_negtrans :
  forall a b c, good a -> good b -> good c ->
    lt a b = false -> lt b c = false -> lt a c = false.

Lemma insert_in_order_on x s :
  good (key x) -> Forall (fun a => good (key a)) s ->
  StronglySorted (in_order lt key reverse) s ->
  StronglySorted (in_order lt key reverse) (PyList.insert lt key reverse x s).
Proof.
  intros Hx. induction s as [|y s IH]; intros Hgood Hs; simpl.
  - constructor; constructor.
  - apply StronglySorted_inv in Hs as [Hs Hy].
    apply Forall_cons_iff in Hgood as [Hgy Hgs].
    destruct (PyList.goes_first lt key reverse y x) eqn:E.
    + constructor; [auto|].
      apply (Permutation_Forall (Permutation_sym (insert_perm lt key reverse x s))).
      constructor; [|assumption].
      unfold in_order, PyList.goes_first in *. destruct reverse; now apply lt_asym.
    + constructor; [constructor; assumption|].
      constructor; [exact E|].
      rewrite List.Forall_forall in *. intros z Hz.
      specialize (Hy z Hz). specialize (Hgs z Hz).
      unfold in_order, PyList.goes_first in *. destruct reverse.
      * exact (lt_negtrans _ _ _ Hx Hgy Hgs E Hy).
      * exact (lt_negtrans _ _ _ Hgs Hgy Hx Hy E).
Qed.

Lemma sorted_in_order_on l :
  Forall (fun a => good (key a)) l ->
  StronglySorted (in_order lt key reverse) (PyList.sorted lt key reverse l).
Proof.
  induction l as [|x l IH]; intros Hgood; simpl; [constructor|].
  apply Forall_cons_iff in Hgood as [Hx Hl].
  apply insert_in_order_on; [assumption | | auto].
  apply (Permutation_Forall (Permutation_sym (sorted_perm lt key reverse l))).
  assumption.
Qed.

End SortedOn.

Section FloatOrder.

Lemma float_lt_asym a b : PyNum.lt a b = true -> PyNum.lt b a = false.
Proof.
  destruct a as [x | [] |], b as [y | [] |]; simpl; try reflexivity; try discriminate.
  rewrite negb_true_iff, negb_false_iff. intros H.
  apply Qle_bool_iff. destruct (Qlt_le_dec y x) as [Hlt | Hle].
  - apply Qlt_le_weak in Hlt. apply Qle_bool_iff in Hlt. congruence.
  - assumption.
Qed.

Lemma float_lt_negtrans a b c :
  a <> PyNum.NaN -> b <> PyNum.NaN -> c <> PyNum.NaN ->
  PyNum.lt a b = false -> PyNum.lt b c = false -> PyNum.lt a c = false.
Proof.
  intros Ha Hb Hc.
  destruct a as [x | [] |], b as [y | [] |], c as [z | [] |]; simpl;
    try reflexivity; try discriminate; try contradiction.
  rewrite !negb_false_iff, !Qle_bool_iff. intros H1 H2.
  eapply Qle_trans; eassumption.
Qed.

Lemma float_lt_le a b :
  a <> PyNum.NaN -> b <> PyNum.NaN -> PyNum.lt a b = false -> PyNum.le b a = true.
Proof.
  intros Ha Hb.
  destruct a as [x | [] |], b as [y | [] |]; simpl;
    try reflexivity; try discriminate; try contradiction.
  now rewrite negb_false_iff.
Qed.

Lemma float_eqb_not_lt a b k :
  PyNum.eqb a k = true -> PyNum.eqb b k = true -> PyNum.lt b a = false.
Proof.
  destruct a as [x | [] |], b as [y | [] |], k as [z | [] |]; simpl;
    try reflexivity; try discriminate.
  rewrite !Qeq_bool_iff, negb_false_iff, Qle_bool_iff. intros -> ->.
  apply Qle_refl.
Qed.

End FloatOrder.

Section GenericRanker.
Variable pow2 : Q -> option Q.
Variable log10 : Z -> Q.
Variable mul : Q -> Q -> PyNum.pyfloat.
Hypothesis mul_not_nan : forall a b, mul a b <> PyNum.NaN.

#[local] Abbreviation score := (Generic.calculate_score pow2 log10 mul).
#[local] Abbreviation keyed :=
  (fun x : PyNum.pyfloat * place => score (snd x) = Some (fst x)).

Lemma score_not_nan r k : score r = Some k -> k <> PyNum.NaN.
Proof.
  unfold Generic.calculate_score. destruct (pow2 _); [|discriminate].
  intros [= <-]. apply mul_not_nan.
Qed.

Lemma decorate_Some l d :
  Generic.decorate pow2 log10 mul l = Some d -> map snd d = l /\ Forall keyed d.
Proof.
  revert d. induction l as [|r l IH]; intros d; cbn [Generic.decorate].
  - intros [= <-]. split; [reflexivity | constructor].
  - destruct (score r) as [k|] eqn:Hk; [|discriminate].
    destruct (Generic.decorate pow2 log10 mul l) as [d'|]; [|discriminate].
    intros [= <-]. destruct (IH d' eq_refl) as [Hmap Hkeyed].
    cbn [map snd]. rewrite Hmap. split; [reflexivity|].
    constructor; assumption.
Qed.

Lemma decorate_raises l r :
  In r l -> score r = None -> Generic.decorate pow2 log10 mul l = None.
Proof.
  induction l as [|a l IH]; intros Hin Hr; [contradiction|].
  cbn [Generic.decorate]. destruct Hin as [-> | Hin].
  - now rewrite Hr.
  - destruct (score a); [|reflexivity]. now rewrite (IH Hin Hr).
Qed.

Lemma decorate_total l :
  (forall r, In r l -> score r <> None) ->
  exists d, Generic.decorate pow2 log10 mul l = Some d.
Proof.
  induction l as [|a l IH]; intros Hl; cbn [Generic.decorate]; [eauto|].
  destruct (score a) as [k|] eqn:Hk.
  - destruct IH as [d ->]; [intros r Hr; apply Hl; now right | eauto].
  - exfalso. apply (Hl a); [now left | assumption].
Qed.

Lemma keyed_descending s :
  Forall keyed s ->
  StronglySorted (in_order PyNum.lt fst true) s ->
  StronglySorted (descending score) (map snd s).
Proof.
  intros Hkeyed Hs.
  induction Hs as [|a s Hs IH Ha]; cbn [map]; constructor.
  - apply IH. now apply Forall_cons_iff in Hkeyed.
  - apply Forall_cons_iff in Hkeyed as [Hka Hks].
    rewrite List.Forall_forall in *. intros r Hr.
    apply in_map_iff in Hr as (b & <- & Hb).
    specialize (Ha b Hb). specialize (Hks b Hb).
    exists (fst a), (fst b). split; [assumption|]. split; [assumption|].
    unfold in_order, PyList.goes_first in Ha.
    apply float_lt_le; [| | assumption]; eapply score_not_nan; eassumption.
Qed.

Lemma keyed_filter k s :
  Forall keyed s ->
  List.filter (scored score k) (map snd s)
  = map snd (List.filter (fun x => PyNum.eqb (fst x) k) s).
Proof.
  induction 1 as [|a s Ha Hs IH]; [reflexivity|].
  cbn [map List.filter]. unfold scored at 1. rewrite Ha, IH.
  destruct (PyNum.eqb (fst a) k); reflexivity.
Qed.

End GenericRanker.

(** C2. [filter_and_rank_restaurants] keeps exactly the items whose rating
    and review count reach the thresholds (a missing field counting as 0),
    each as often as it occurs in the input.  The score of an item is the
    rounded product of its rating squared and of the logarithm of its review
    count; when the score of a kept item raises, so does the ranking.
    Otherwise the kept items are returned in descending order of score, and
    the items of one score come out in their input order.  This holds
    however the power, the logarithm and the product are rounded. *)
Theorem filter_and_rank_spec
    (pow2 : Q -> option Q) (log10 : Z -> Q) (mul : Q -> Q -> PyNum.pyfloat)
    (restaurants : list place) (min_rating : Q) (min_reviews : Z) :
  (forall a b, mul a b <> PyNum.NaN) ->
  let score := Generic.calculate_score pow2 log10 mul in
  let result :=
    Generic.filter_and_rank_restaurants pow2 log10 mul
      restaurants min_rating min_reviews in
  let kept r :=
    (min_rating <= get (rating r) 0)%Q /\
    (min_reviews <= get (user_ratings_total r) 0)%Z in
  let keep := meets_thresholds min_rating min_reviews in
  let input := List.filter keep restaurants in
  (forall r, keep r = true <-> kept r)
  /\ (forall r,
        score r
        = match pow2 (score_rating r) with
          | Some square => Some (mul square (log10 (Z.max (score_reviews r) 1)))
          | None => None
          end)
  /\ ((exists r, In r input /\ score r = None) -> result = None)
  /\ ((forall r, In r input -> score r <> None) ->
      exists ranked,
        result = Some ranked
        /\ (forall r, In r ranked <-> In r restaurants /\ kept r)
        /\ Permutation ranked input
        /\ StronglySorted (descending score) ranked
        /\ (forall k : PyNum.pyfloat,
              List.filter (scored score k) ranked
              = List.filter (scored score k) input)).
Proof.
  intros Hnan score result kept keep input.
  split; [intros r; apply meets_thresholds_iff|].
  split; [intros r; reflexivity|].
  split.
  - intros (r & Hin & Hr). unfold result, Generic.filter_and_rank_restaurants.
    fold keep input. now rewrite (decorate_raises pow2 log10 mul input r Hin Hr).
  - intros Hall.
    destruct (decorate_total pow2 log10 mul input Hall) as [d Hd].
    destruct (decorate_Some pow2 log10 mul input d Hd) as [Hmap Hkeyed].
    pose proof (sorted_perm PyNum.lt fst true d) as Hperm.
    assert (Hkeyed' : Forall (fun x => score (snd x) = Some (fst x))
                             (PyList.sorted PyNum.lt fst true d)).
    { apply (Permutation_Forall (Permutation_sym Hperm)). exact Hkeyed. }
    assert (Hranked : Permutation (map snd (PyList.sorted PyNum.lt fst true d)) input).
    { rewrite <- Hmap. apply Permutation_map. exact Hperm. }
    exists (map snd (PyList.sorted PyNum.lt fst true d)).
    split; [|split; [|split; [|split]]].
    + unfold result, Generic.filter_and_rank_restaurants. fold keep input.
      now rewrite Hd.
    + intros r. unfold kept. rewrite <- meets_thresholds_iff, <- filter_In.
      fold keep input. split.
      * apply Permutation_in. exact Hranked.
      * apply Permutation_in. symmetry. exact Hranked.
    + exact Hranked.
    + apply (keyed_descending pow2 log10 mul Hnan); [exact Hkeyed'|].
      apply (sorted_in_order_on PyNum.lt fst true (fun k => k <> PyNum.NaN)).
      * intros a b _ _. apply float_lt_asym.
      * apply float_lt_negtrans.
      * eapply List.Forall_impl; [|exact Hkeyed].
        intros x Hx. eapply (score_not_nan pow2 log10 mul Hnan). exact Hx.
    + intros k. unfold score in *.
      rewrite (keyed_filter pow2 log10 mul k _ Hkeyed').
      rewrite sorted_filter.
      * rewrite <- (keyed_filter pow2 log10 mul k _ Hkeyed). now rewrite Hmap.
      * intros a b Ha Hb. unfold PyList.goes_first.
        eapply float_eqb_not_lt; eassumption.
Qed.

Lemma binary64_not_nan q : PyNum.binary64 q <> PyNum.NaN.
Proof.
  unfold PyNum.binary64.
  destruct (Qnum q); [discriminate| |];
    destruct (PyNum.nearest_double _ _); discriminate.
Qed.

(** The two places that tie over the reals: the doubles differ in their
    last bit and the second place comes out first. *)
Lemma filter_and_rank_spec_witness :
  let result :=
    Generic.filter_and_rank_restaurants nearest_pow2 sample_log10 PyNum.mul
      [harbour_grill; garden_bistro] (0 # 1) 0 in
  let score := Generic.calculate_score nearest_pow2 sample_log10 PyNum.mul in
  result = Some [garden_bistro; harbour_grill]
  /\ exists ranked,
       result = Some ranked
       /\ Permutation ranked [harbour_grill; garden_bistro]
       /\ StronglySorted (descending score) ranked.
Proof.
  intros result score. split; [vm_compute; reflexivity|].
  destruct (filter_and_rank_spec nearest_pow2 sample_log10 PyNum.mul
              [harbour_grill; garden_bistro] (0 # 1) 0)
    as (_ & _ & _ & H).
  - intros a b. apply binary64_not_nan.
  - destruct H as (ranked & Hres & _ & Hperm & Hsorted & _).
    + intros r [<- | [<- | []]]; discriminate.
    + exists ranked. auto.
Defined.





(** ** Paginator / fetcher *)


Lemma requests_of_app t1 t2 :
  requests_of (t1 ++ t2) = requests_of t1 ++ requests_of t2.
Proof.
  induction t1 as [|[m|s|p] t1 IH]; simpl; [reflexivity| | |]; now rewrite ?IH.
Qed.

Lemma timeline_app t1 t2 : timeline (t1 ++ t2) = timeline t1 ++ timeline t2.
Proof.
  induction t1 as [|[m|s|p] t1 IH]; simpl; [reflexivity| | |]; now rewrite ?IH.
Qed.

Lemma clamp_notices_app t1 t2 :
  clamp_notices (t1 ++ t2) = (clamp_notices t1 + clamp_notices t2)%nat.
Proof.
  induction t1 as [|[m|s|p] t1 IH]; simpl; [reflexivity| | |]; rewrite ?IH; auto.
  destruct m; simpl; auto.
Qed.


Section FetcherFacts.
Variable api : nat -> Params.t -> http_result.
Variables (lat lng : Q) (radius_meters : Z) (api_key : string).

#[local] Abbreviation body := (loop_body api lat lng radius_meters api_key).
#[local] Abbreviation loop := (while_loop api lat lng radius_meters api_key).
#[local] Abbreviation params_of := (page_params lat lng radius_meters api_key).

Lemma while_loop_step st :
  loop st =
  if (page_count st <? 3)%nat then
    match body st with
    | Break st' => st'
    | Continue st' => loop st'
    end
  else st.
Proof.
  apply (while_loop_elim api lat lng radius_meters api_key
           (fun st r => r = if (page_count st <? 3)%nat then
                             match body st with
                             | Break st' => st'
                             | Continue st' => loop st'
                             end
                           else st)).
  - intros s e _. now rewrite e.
  - intros s s' e Hg _ _. now rewrite Hg, e.
  - intros s s' e Hg _ _ _. now rewrite Hg, e.
Qed.


Lemma while_loop_exchanges n st :
  (page_count st + n = 3)%nat -> sent st = page_count st ->
  let ex := exchanges api api_key n (page_count st) (params_of st) in
  log (loop st) = log st ++ render (page_count st) ex
  /\ all_restaurants (loop st)
     = all_restaurants st ++ flat_map (fun x => page_items (snd x)) ex.
Proof.
  revert st. induction n as [|n IH]; intros st Hn Hsent.
  - rewrite while_loop_step.
    replace (page_count st <? 3)%nat with false
      by (symmetry; apply Nat.ltb_ge; lia).
    simpl. now rewrite !app_nil_r.
  - rewrite while_loop_step.
    replace (page_count st <? 3)%nat with true
      by (symmetry; apply Nat.ltb_lt; lia).
    cbn [exchanges render flat_map snd]. unfold loop_body.
    rewrite Hsent. fold (prelude (page_count st)).
    change (page_prelude st) with (prelude (page_count st)).
    destruct (api (page_count st) (params_of st)) as [e | d] eqn:Hr.
    + cbn. rewrite !app_nil_r, <- !app_assoc. auto.
    + unfold continues, report, page_items, failure_report.
      destruct (status_ok (Response.status d)) eqn:Hs; cbn [negb andb].
      * destruct (PyStr.truthy_opt (Response.next_page_token d)) eqn:Ht;
          cbn [negb].
        -- match goal with
           | |- context [ loop ?s ] => specialize (IH s)
           end.
           cbn [page_count sent log all_restaurants] in IH.
           destruct IH as [IH1 IH2]; [lia | lia |].
           rewrite IH1, IH2.
           replace (page_count st + 1)%nat with (S (page_count st)) by lia.
           unfold page_params at 2 4. cbn [page_count next_page_token].
           fold (next_params api_key (Response.next_page_token d)).
           rewrite <- !app_assoc. auto.
        -- cbn. rewrite !app_nil_r, <- !app_assoc. auto.
      * cbn. rewrite !app_nil_r, <- !app_assoc. auto.
Qed.

End FetcherFacts.


Section ExchangeFacts.
Variable api : nat -> Params.t -> http_result.
Variable api_key : string.

#[local] Abbreviation exchanges := (exchanges api api_key).

Lemma exchanges_length n k p : (List.length (exchanges n k p) <= n)%nat.
Proof.
  revert k p. induction n as [|n IH]; intros k p; simpl; [lia|].
  destruct (continues _); simpl; [|lia].
  specialize (IH (S k) (next_params api_key o)). lia.
Qed.

Lemma exchanges_nth n k p i q r :
  nth_error (exchanges n k p) i = Some (q, r) -> r = api (k + i) q.
Proof.
  revert k p i. induction n as [|n IH]; intros k p i; simpl.
  - destruct i; discriminate.
  - destruct i as [|i]; simpl.
    + intros [= <- <-]. now rewrite Nat.add_0_r.
    + destruct (continues (api k p)); [|intros H; destruct i; discriminate H].
      intros H. apply IH in H. now rewrite Nat.add_succ_r.
Qed.

Lemma exchanges_stop n k p i q r :
  nth_error (exchanges n k p) i = Some (q, r) ->
  continues r = None -> List.length (exchanges n k p) = S i.
Proof.
  revert k p i. induction n as [|n IH]; intros k p i; simpl.
  - destruct i; discriminate.
  - destruct i as [|i]; simpl.
    + intros [= <- <-] ->. reflexivity.
    + destruct (continues (api k p)); [|intros H; destruct i; discriminate H].
      intros H Hr. f_equal. eapply IH; eassumption.
Qed.

Lemma exchanges_paged n k p i q r :
  nth_error (exchanges n k p) (S i) = Some (q, r) -> paged q.
Proof.
  revert k p i. induction n as [|n IH]; intros k p i; simpl; [discriminate|].
  destruct (continues (api k p)) as [token|] eqn:Hc; [|intros H; destruct i; discriminate H].
  destruct i as [|i].
  - destruct n; simpl; [discriminate|]. intros [= <- _].
    unfold continues in Hc. destruct (api k p) as [e|d]; [discriminate|].
    destruct (status_ok _); [|discriminate]. simpl in Hc.
    destruct (PyStr.truthy_opt (Response.next_page_token d)) eqn:Ht; [|discriminate].
    injection Hc as <-. unfold paged. simpl. auto.
  - apply IH.
Qed.

Lemma exchanges_items n k p :
  flat_map (fun x => page_items (snd x)) (exchanges n k p)
  = items_of_pages api k (map fst (exchanges n k p)).
Proof.
  revert k p. induction n as [|n IH]; intros k p; simpl; [reflexivity|].
  f_equal. destruct (continues _); [apply IH | reflexivity].
Qed.

Lemma items_of_pages_app k reqs1 reqs2 :
  items_of_pages api k (reqs1 ++ reqs2)
  = items_of_pages api k reqs1
    ++ items_of_pages api (k + List.length reqs1) reqs2.
Proof.
  revert k. induction reqs1 as [|q reqs1 IH]; intros k; simpl.
  - now rewrite Nat.add_0_r.
  - rewrite IH, <- app_assoc, Nat.add_succ_r. reflexivity.
Qed.

Lemma requests_of_report r : requests_of (report r) = [].
Proof.
  destruct r as [e|d]; simpl; [reflexivity|].
  destruct (status_ok _); simpl.
  - destruct (_ <? _)%nat; reflexivity.
  - destruct (PyStr.truthy_opt _); reflexivity.
Qed.

Lemma timeline_report r : timeline (report r) = [].
Proof.
  destruct r as [e|d]; simpl; [reflexivity|].
  destruct (status_ok _); simpl.
  - destruct (_ <? _)%nat; reflexivity.
  - destruct (PyStr.truthy_opt _); reflexivity.
Qed.

Lemma clamp_notices_report r : clamp_notices (report r) = 0%nat.
Proof.
  destruct r as [e|d]; simpl; [reflexivity|].
  destruct (status_ok _); simpl.
  - destruct (_ <? _)%nat; reflexivity.
  - destruct (PyStr.truthy_opt _); reflexivity.
Qed.

Lemma requests_of_render k ex : requests_of (render k ex) = map fst ex.
Proof.
  revert k. induction ex as [|[p r] ex IH]; intros k; simpl; [reflexivity|].
  rewrite !requests_of_app. simpl. rewrite requests_of_app, requests_of_report, IH.
  unfold prelude. destruct (k =? 0)%nat; reflexivity.
Qed.

Lemma timeline_render k ex : timeline (render k ex) = schedule k (map fst ex).
Proof.
  revert k. induction ex as [|[p r] ex IH]; intros k; simpl; [reflexivity|].
  rewrite !timeline_app. simpl. rewrite timeline_app, timeline_report, IH.
  unfold prelude. destruct (k =? 0)%nat; reflexivity.
Qed.

Lemma clamp_notices_render k ex : clamp_notices (render k ex) = 0%nat.
Proof.
  revert k. induction ex as [|[p r] ex IH]; intros k; simpl; [reflexivity|].
  rewrite !clamp_notices_app. simpl.
  rewrite clamp_notices_app, clamp_notices_report, IH.
  unfold prelude. destruct (k =? 0)%nat; reflexivity.
Qed.

Lemma render_app k ex1 ex2 :
  render k (ex1 ++ ex2) = render k ex1 ++ render (k + List.length ex1) ex2.
Proof.
  revert k. induction ex1 as [|[p r] ex1 IH]; intros k; simpl.
  - now rewrite Nat.add_0_r.
  - rewrite IH, Nat.add_succ_r, <- app_assoc. simpl.
    rewrite <- app_assoc. reflexivity.
Qed.

End ExchangeFacts.

Lemma failed_stops r :
  failed r -> continues r = None /\ report r = failure_report r /\ page_items r = [].
Proof.
  destruct r as [e|d]; simpl; [auto|]. intros [H1 H2].
  assert (status_ok (Response.status d) = false) as ->; [|auto].
  unfold status_ok. destruct (Response.status d) as [s|]; [|reflexivity].
  apply orb_false_iff. split; apply String.eqb_neq; congruence.
Qed.


(** A run of the fetcher is the rendering of its exchanges. *)
Lemma fetch_exchanges api lat lng radius_miles api_key :
  let rm := request_radius radius_miles in
  let ex := exchanges api api_key 3 0 (first_params lat lng rm api_key) in
  fetch_all_restaurants api lat lng radius_miles api_key
  = ((if (50000 <? miles_to_meters radius_miles)%Z then [Print RadiusCapped] else [])
     ++ render 0 ex,
     flat_map (fun x => page_items (snd x)) ex).
Proof.
  intros rm ex. unfold fetch_all_restaurants.
  assert (Hrm : (if (50000 <? miles_to_meters radius_miles)%Z
                 then 50000%Z else miles_to_meters radius_miles) = rm).
  { unfold rm, request_radius. destruct (Z.ltb_spec 50000 (miles_to_meters radius_miles)); lia. }
  destruct (50000 <? miles_to_meters radius_miles)%Z; rewrite Hrm;
    match goal with
    | |- context [ while_loop _ _ _ _ _ ?s ] =>
        destruct (while_loop_exchanges api lat lng rm api_key 3 s) as [H1 H2];
        [reflexivity | reflexivity |]
    end;
    rewrite H1, H2; reflexivity.
Qed.

Lemma fetch_requests api lat lng radius_miles api_key :
  requests_of (fst (fetch_all_restaurants api lat lng radius_miles api_key))
  = map fst (exchanges api api_key 3 0
               (first_params lat lng (request_radius radius_miles) api_key)).
Proof.
  rewrite fetch_exchanges. cbn [fst].
  rewrite requests_of_app, requests_of_render.
  destruct (_ <? _)%Z; reflexivity.
Qed.

Lemma fetch_timeline api lat lng radius_miles api_key :
  timeline (fst (fetch_all_restaurants api lat lng radius_miles api_key))
  = schedule 0 (map fst (exchanges api api_key 3 0
                           (first_params lat lng (request_radius radius_miles) api_key))).
Proof.
  rewrite fetch_exchanges. cbn [fst].
  rewrite timeline_app, timeline_render.
  destruct (_ <? _)%Z; reflexivity.
Qed.

Lemma nth_error_last {A} (l : list A) i x :
  nth_error l i = Some x -> List.length l = S i -> l = firstn i l ++ [x].
Proof.
  revert i. induction l as [|a l IH]; intros i; simpl.
  - destruct i; discriminate.
  - destruct i as [|i]; simpl.
    + intros [= ->] Hl. destruct l; [reflexivity | discriminate].
    + intros H Hl. f_equal. apply IH; [assumption | lia].
Qed.

(** C4. A run of the fetcher sends at most three requests, however many
    continuation tokens the API hands out; the only delays are the two
    units spent before the second and before the third request; and no
    request follows a response without continuation token. *)
Theorem pagination_bounds
    (api : nat -> Params.t -> http_result) (lat lng radius_miles : Q)
    (api_key : string) :
  let t := fst (fetch_all_restaurants api lat lng radius_miles api_key) in
  (List.length (requests_of t) <= 3)%nat
  /\ (exists p1,
        Params.pagetoken p1 = None /\
        (timeline t = [HttpGet p1]
         \/ (exists p2, paged p2 /\
               timeline t = [HttpGet p1; Sleep 2; HttpGet p2])
         \/ (exists p2 p3, paged p2 /\ paged p3 /\
               timeline t = [HttpGet p1; Sleep 2; HttpGet p2; Sleep 2; HttpGet p3])))
  /\ (forall i p d,
        nth_error (requests_of t) i = Some p ->
        api i p = Json d ->
        PyStr.truthy_opt (Response.next_page_token d) = false ->
        List.length (requests_of t) = S i).
Proof.
  intros t. unfold t. rewrite fetch_requests.
  set (p1 := first_params lat lng (request_radius radius_miles) api_key).
  split; [|split].
  - rewrite length_map. apply exchanges_length.
  - exists p1. split; [reflexivity|].
    rewrite fetch_timeline. fold p1.
    pose proof (exchanges_length api api_key 3 0 p1) as Hlen.
    pose proof (exchanges_paged api api_key 3 0 p1 0) as Hp2.
    pose proof (exchanges_paged api api_key 3 0 p1 1) as Hp3.
    assert (Hhd : exists tl, exchanges api api_key 3 0 p1 = (p1, api 0%nat p1) :: tl)
      by (simpl; eauto).
    destruct Hhd as [tl Hhd]. rewrite Hhd in *.
    destruct tl as [|[p2 r2] [|[p3 r3] [|x tl]]]; simpl in Hlen; [| | |lia].
    + left. reflexivity.
    + right. left. exists p2. split; [eapply Hp2; reflexivity | reflexivity].
    + right. right. exists p2, p3.
      split; [eapply Hp2; reflexivity|].
      split; [eapply Hp3; reflexivity | reflexivity].
  - intros i p d Hnth Hr Htok.
    rewrite nth_error_map in Hnth.
    destruct (nth_error _ i) as [[q r]|] eqn:Hex; [|discriminate].
    injection Hnth as ->.
    pose proof (exchanges_nth _ _ _ _ _ _ _ _ Hex) as Hr'. simpl in Hr'.
    rewrite length_map. eapply exchanges_stop; [exact Hex|].
    rewrite Hr', Hr. unfold continues. rewrite Htok.
    now rewrite andb_false_r.
Qed.

(** C5. A request that fails (no response, or a status other than "OK" and
    "ZERO_RESULTS") does not abort the run: it is the last request, the log
    ends with the warning for it (with the detail message when the response
    has one), and the result is made of the classifier-passing items of the
    pages fetched before it. *)
Theorem fetch_failure_partial
    (api : nat -> Params.t -> http_result) (lat lng radius_miles : Q)
    (api_key : string) (i : nat) (p : Params.t) :
  let run := fetch_all_restaurants api lat lng radius_miles api_key in
  nth_error (requests_of (fst run)) i = Some p ->
  failed (api i p) ->
  List.length (requests_of (fst run)) = S i
  /\ (exists before, fst run = before ++ HttpGet p :: failure_report (api i p))
  /\ snd run = items_of_pages api 0 (firstn i (requests_of (fst run))).
Proof.
  intros run. unfold run. rewrite fetch_requests.
  set (p1 := first_params lat lng (request_radius radius_miles) api_key).
  intros Hnth Hfail.
  rewrite nth_error_map in Hnth.
  destruct (nth_error _ i) as [[q r]|] eqn:Hex; [|discriminate].
  injection Hnth as ->.
  pose proof (exchanges_nth _ _ _ _ _ _ _ _ Hex) as Hr. simpl in Hr. subst r.
  destruct (failed_stops _ Hfail) as (Hstop & Hrep & Hitems).
  pose proof (exchanges_stop _ _ _ _ _ _ _ _ Hex Hstop) as Hlen.
  pose proof (nth_error_last _ _ _ Hex Hlen) as Hsplit.
  assert (Hpre : List.length (firstn i (exchanges api api_key 3 0 p1)) = i)
    by (rewrite length_firstn; lia).
  rewrite fetch_exchanges. cbn [fst snd]. fold p1. rewrite exchanges_items.
  remember (firstn i (exchanges api api_key 3 0 p1)) as pre eqn:Heqpre.
  clear Heqpre Hex Hlen.
  remember (exchanges api api_key 3 0 p1) as ex eqn:Heqex.
  clear Heqex. subst ex.
  split; [|split].
  - rewrite length_map, length_app. simpl. lia.
  - rewrite render_app, Hpre. cbn [render]. rewrite Hrep, app_nil_r.
    match goal with
    | |- exists before, ?l0 ++ _ = _ =>
        exists (l0 ++ render 0 pre ++ prelude (0 + i))
    end.
    rewrite <- !app_assoc. reflexivity.
  - rewrite map_app, items_of_pages_app. cbn [map fst items_of_pages].
    rewrite length_map, Hpre. cbn [Nat.add]. rewrite Hitems, !app_nil_r.
    f_equal. rewrite firstn_app, length_map, Hpre, Nat.sub_diag.
    cbn [firstn]. rewrite app_nil_r.
    symmetry. apply firstn_all2. rewrite length_map. lia.
Qed.


Lemma pagination_bounds_witness :
  let t := fst (fetch_all_restaurants two_page_api (1 # 1) (2 # 1) (20 # 1) "key") in
  List.length (requests_of t) = 2%nat.
Proof.
  intros t.
  apply (proj2 (proj2 (pagination_bounds two_page_api (1 # 1) (2 # 1) (20 # 1) "key"))
           1%nat
           (Params.Make "key" "restaurant" "restaurant" None None (Some "token-2"))
           (Response.Make (Some "ZERO_RESULTS") None None None)).
  - vm_compute. reflexivity.
  - reflexivity.
  - reflexivity.
Defined.


Lemma fetch_failure_partial_witness :
  let run := fetch_all_restaurants rejecting_api (1 # 1) (2 # 1) (20 # 1) "key" in
  let p := Params.Make "key" "restaurant" "restaurant" None None (Some "token-2") in
  List.length (requests_of (fst run)) = 2%nat
  /\ (exists before, fst run = before ++ HttpGet p :: failure_report (rejecting_api 1 p))
  /\ snd run = items_of_pages rejecting_api 0 (firstn 1 (requests_of (fst run))).
Proof.
  intros run p.
  apply (fetch_failure_partial rejecting_api (1 # 1) (2 # 1) (20 # 1) "key" 1 p).
  - vm_compute. reflexivity.
  - simpl. split; discriminate.
Defined.

(** [int] truncates towards zero. *)
Lemma int_truncates (x : Q) :
  ((0 <= x)%Q -> (inject_Z (PyNum.int x) <= x)%Q /\ (x < inject_Z (PyNum.int x) + 1)%Q)
  /\ ((x <= 0)%Q -> (inject_Z (PyNum.int x) - 1 < x)%Q /\ (x <= inject_Z (PyNum.int x))%Q).
Proof.
  destruct x as [a b]. unfold PyNum.int, Qle, Qlt. simpl.
  pose proof (Z.quot_rem' a (Z.pos b)) as Hqr.
  pose proof (Z.rem_bound_abs a (Z.pos b)) as Habs.
  split; intros Ha.
  - pose proof (Z.rem_nonneg a (Z.pos b)). nia.
  - pose proof (Z.rem_nonpos a (Z.pos b)). nia.
Qed.

(** The run of the fetcher from a radius in meters. *)
Lemma fetch_from_meters api lat lng (meters : Z) api_key :
  let radius := Z.min meters 50000 in
  let notice := if (50000 <? meters)%Z then [Print RadiusCapped] else [] in
  let ex := exchanges api api_key 3 0 (first_params lat lng radius api_key) in
  let st := while_loop api lat lng radius api_key (LoopState [] None 0 notice 0) in
  log st = notice ++ render 0 ex
  /\ all_restaurants st = flat_map (fun x => page_items (snd x)) ex.
Proof.
  intros radius notice ex st.
  destruct (while_loop_exchanges api lat lng radius api_key 3
              (LoopState [] None 0 notice 0)) as [H1 H2];
    [reflexivity | reflexivity |].
  split; [exact H1 | exact H2].
Qed.

(** C6 (as the code has it). The radius is converted to meters by truncating
    the double [miles * 1609.34]; when that product is not finite the
    conversion raises and nothing is requested.  When the converted value
    exceeds 50000 the first request carries a radius of exactly 50000 and
    the clamp notice is printed once; otherwise the request carries the
    converted value and no notice is printed.  Later requests carry no
    radius.  This holds however the product is rounded. *)
Theorem radius_conversion_and_clamp
    (mul : Q -> Q -> PyNum.pyfloat)
    (api : nat -> Params.t -> http_result) (lat lng radius_miles : Q)
    (api_key : string) :
  let product := mul radius_miles Generic.METERS_PER_MILE in
  let run := Generic.fetch_all_restaurants mul api lat lng radius_miles api_key in
  (forall x, product = PyNum.Finite x ->
     exists meters t items,
       Generic.miles_to_meters mul radius_miles = Some meters
       /\ run = Some (t, items)
       /\ ((0 <= x)%Q -> (inject_Z meters <= x)%Q /\ (x < inject_Z meters + 1)%Q)
       /\ ((x <= 0)%Q -> (inject_Z meters - 1 < x)%Q /\ (x <= inject_Z meters)%Q)
       /\ exists p rest,
            requests_of t = p :: rest
            /\ Forall (fun q => Params.radius q = None) rest
            /\ ((50000 < meters)%Z ->
                Params.radius p = Some 50000%Z /\ clamp_notices t = 1%nat)
            /\ ((meters <= 50000)%Z ->
                Params.radius p = Some meters /\ clamp_notices t = 0%nat))
  /\ (not_finite product ->
      Generic.miles_to_meters mul radius_miles = None /\ run = None).
Proof.
  intros product run. split.
  - intros x Hx.
    assert (Hm : Generic.miles_to_meters mul radius_miles = Some (PyNum.int x)).
    { unfold Generic.miles_to_meters. fold product. now rewrite Hx. }
    set (meters := PyNum.int x) in *.
    destruct (fetch_from_meters api lat lng meters api_key) as [Hlog Hall].
    set (radius := Z.min meters 50000) in *.
    set (notice := if (50000 <? meters)%Z then [Print RadiusCapped] else []) in *.
    set (p1 := first_params lat lng radius api_key) in *.
    exists meters, (notice ++ render 0 (exchanges api api_key 3 0 p1)),
      (flat_map (fun x => page_items (snd x)) (exchanges api api_key 3 0 p1)).
    split; [exact Hm|]. split; [|split; [|split]].
    + unfold run, Generic.fetch_all_restaurants. rewrite Hm.
      rewrite <- Hlog, <- Hall. unfold notice, radius.
      destruct (Z.ltb_spec 50000 meters).
      * rewrite Z.min_r by lia. reflexivity.
      * rewrite Z.min_l by lia. reflexivity.
    + apply int_truncates.
    + apply int_truncates.
    + rewrite requests_of_app, requests_of_render.
      rewrite clamp_notices_app, clamp_notices_render, Nat.add_0_r.
      pose proof (exchanges_paged api api_key 3 0 p1) as Hpaged.
      assert (Hhd : exists tl, exchanges api api_key 3 0 p1 = (p1, api 0%nat p1) :: tl)
        by (simpl; eauto).
      destruct Hhd as [tl Hhd]. rewrite Hhd in *.
      assert (Hnotice : requests_of notice = []).
      { unfold notice. destruct (50000 <? meters)%Z; reflexivity. }
      rewrite Hnotice. cbn [app map fst].
      exists p1, (map fst tl). split; [reflexivity|]. split; [|split].
      * apply List.Forall_forall. intros q Hq.
        apply in_map_iff in Hq as ([q' r] & <- & Hq).
        apply In_nth_error in Hq as [j Hj].
        destruct (Hpaged j q' r Hj) as (_ & _ & Hrad). exact Hrad.
      * intros Hgt. unfold p1, radius, notice. cbn [first_params Params.radius].
        rewrite Z.min_r by lia.
        replace (50000 <? meters)%Z with true by (symmetry; apply Z.ltb_lt; lia).
        auto.
      * intros Hle. unfold p1, radius, notice. cbn [first_params Params.radius].
        rewrite Z.min_l by lia.
        replace (50000 <? meters)%Z with false by (symmetry; apply Z.ltb_ge; lia).
        auto.
  - intros Hnf.
    assert (Hm : Generic.miles_to_meters mul radius_miles = None).
    { unfold Generic.miles_to_meters. fold product.
      destruct product; [contradiction | reflexivity | reflexivity]. }
    split; [exact Hm|].
    unfold run, Generic.fetch_all_restaurants. now rewrite Hm.
Qed.

(** The radius of 31.069258205226987 miles: the exact product is below
    50001 and the double is 50001, so that the radius is clamped. *)
Lemma radius_conversion_and_clamp_witness :
  let miles := 1093152341216703 # 35184372088832 in
  (miles * Generic.METERS_PER_MILE < 50001 # 1)%Q
  /\ exists t items,
       Generic.miles_to_meters PyNum.mul miles = Some 50001%Z
       /\ Generic.fetch_all_restaurants PyNum.mul two_page_api (1 # 1) (2 # 1)
            miles "key" = Some (t, items)
       /\ map Params.radius (requests_of t) = [Some 50000%Z; None]
       /\ clamp_notices t = 1%nat.
Proof.
  intros miles. split; [reflexivity|].
  destruct (proj1 (radius_conversion_and_clamp PyNum.mul two_page_api
                     (1 # 1) (2 # 1) miles "key") (50001 # 1))
    as (meters & t & items & Hm & Hrun & _ & _ & p & rest & _ & _ & Hclamp & _).
  - vm_compute. reflexivity.
  - assert (meters = 50001%Z) as ->.
    { assert (Generic.miles_to_meters PyNum.mul miles = Some 50001%Z) as Hc
        by (vm_compute; reflexivity).
      congruence. }
    destruct Hclamp as [_ Hn]; [lia|].
    exists t, items. split; [exact Hm|]. split; [exact Hrun|].
    split; [|exact Hn].
    assert (Hc : exists u i,
               Generic.fetch_all_restaurants PyNum.mul two_page_api (1 # 1) (2 # 1)
                 miles "key" = Some (u, i)
               /\ map Params.radius (requests_of u) = [Some 50000%Z; None]).
    { vm_compute. do 2 eexists. split; reflexivity. }
    destruct Hc as (u & i & Hu & Hr). congruence.
Defined.

(** C6, as the specification words it, fails: a radius of 31.05 miles is
    more than 31 miles, yet the request carries 49970 meters and no notice
    is printed.  The same happens with the rounded product, for the double
    that [31.05] denotes. *)
Lemma clamp_above_31_miles_fails :
  (31 # 1 < 3105 # 100)%Q
  /\ (let t := fst (fetch_all_restaurants two_page_api (1 # 1) (2 # 1)
                      (3105 # 100) "key") in
      map Params.radius (requests_of t) = [Some 49970%Z; None]
      /\ clamp_notices t = 0%nat)
  /\ (31 # 1 < 8739798026865869 # 281474976710656)%Q
  /\ (exists t items,
        Generic.fetch_all_restaurants PyNum.mul two_page_api (1 # 1) (2 # 1)
          (8739798026865869 # 281474976710656) "key" = Some (t, items)
        /\ map Params.radius (requests_of t) = [Some 49970%Z; None]
        /\ clamp_notices t = 0%nat).
Proof.
  split; [reflexivity|]. split; [vm_compute; split; reflexivity|].
  split; [reflexivity|].
  vm_compute. do 2 eexists. split; [reflexivity|]. split; reflexivity.
Qed.

(** ** Presenter *)


(** C7. For an empty ranked list the presenter prints its header and then
    the guidance block: the reviews threshold halved by integer division,
    the rating threshold lowered by 0.2 but not below 3.0, the radius raised
    by 10 but not above 31.  A run whose ranked list is empty ends with that
    block and returns normally; this is the case when the very first request
    fails, where nothing is fetched and nothing is ranked. *)
Theorem no_results_guidance :
  (forall MAX_DISPLAY location_name radius_miles min_rating min_reviews
          total_fetched show_types,
     display_results MAX_DISPLAY [] location_name radius_miles min_rating
                     min_reviews total_fetched show_types
     = [ Print (RestaurantsNear location_name);
         Print (SearchRadius radius_miles);
         Print (Filters min_rating min_reviews);
         Print (FetchedMatched total_fetched 0);
         Print Rule;
         Print NoRestaurantsFound;
         Print TryAdjusting;
         Print (SuggestReviews (min_reviews / 2));
         Print (SuggestRating (Qmax (min_rating - (2 # 10)) (3 # 1)));
         Print (SuggestRadius (Qmin (radius_miles + (10 # 1)) (31 # 1))) ])
  /\ (forall api args out lat lng location_name,
        get_location (args_city args) (args_coords args)
        = (out, Returned (lat, lng, location_name)) ->
        filter_and_rank_restaurants
          (snd (fetch_all_restaurants api lat lng (args_radius args) (args_api_key args)))
          (args_rating args) (args_reviews args) = [] ->
        exists before,
          main api args
          = (before
             ++ guidance (args_radius args) (args_rating args) (args_reviews args),
             Returned tt))
  /\ (forall api args out lat lng location_name e,
        get_location (args_city args) (args_coords args)
        = (out, Returned (lat, lng, location_name)) ->
        (forall p, api 0%nat p = RequestException e) ->
        exists before,
          main api args
          = (before
             ++ [ Print (RequestFailed e); Print (Retrieved 0);
                  Print (RestaurantsNear location_name);
                  Print (SearchRadius (args_radius args));
                  Print (Filters (args_rating args) (args_reviews args));
                  Print (FetchedMatched 0 0);
                  Print Rule ]
             ++ guidance (args_radius args) (args_rating args) (args_reviews args),
             Returned tt)).
Proof.
  split; [reflexivity | split].
  - intros api args out lat lng location_name Hloc Hempty.
    unfold main. rewrite Hloc.
    destruct (fetch_all_restaurants api lat lng (args_radius args) (args_api_key args))
      as [fetch_log all] eqn:Hfetch.
    cbn [snd] in Hempty. rewrite Hempty.
    exists (out
            ++ [ Print (LocationLine location_name lat lng);
                 Print (Searching (args_radius args)); Print (FetchingPage 1) ]
            ++ fetch_log
            ++ [ Print (Retrieved (List.length all));
                 Print (RestaurantsNear location_name);
                 Print (SearchRadius (args_radius args));
                 Print (Filters (args_rating args) (args_reviews args));
                 Print (FetchedMatched (List.length all) 0);
                 Print Rule ]).
    f_equal. rewrite <- !app_assoc. reflexivity.
  - intros api args out lat lng location_name e Hloc Hapi.
    unfold main. rewrite Hloc, fetch_exchanges.
    cbn [exchanges]. rewrite Hapi. cbn [continues render flat_map page_items snd].
    cbn [report failure_report filter_and_rank_restaurants List.filter PyList.sorted
         fold_right List.length display_results].
    exists (out
            ++ [ Print (LocationLine location_name lat lng);
                 Print (Searching (args_radius args)); Print (FetchingPage 1) ]
            ++ (if (50000 <? miles_to_meters (args_radius args))%Z
                then [Print RadiusCapped] else [])
            ++ [ HttpGet (first_params lat lng (request_radius (args_radius args))
                            (args_api_key args)) ]).
    f_equal. rewrite <- !app_assoc. reflexivity.
Qed.

Lemma no_results_guidance_witness :
  exists before,
    main (fun _ _ => RequestException "timed out")
         (Arguments "key" None None (20 # 1) (47 # 10) 300 false 20)
    = (before
       ++ [ Print (RequestFailed "timed out"); Print (Retrieved 0);
            Print (RestaurantsNear (LabelText "Seattle"));
            Print (SearchRadius (20 # 1));
            Print (Filters (47 # 10) 300);
            Print (FetchedMatched 0 0);
            Print Rule ]
       ++ guidance (20 # 1) (47 # 10) 300,
       Returned tt).
Proof.
  apply (proj2 (proj2 no_results_guidance)
           (fun _ _ => RequestException "timed out")
           (Arguments "key" None None (20 # 1) (47 # 10) 300 false 20)
           [] (476062 # 10000) (- (1223321 # 10000)) (LabelText "Seattle") "timed out").
  - reflexivity.
  - intros p. reflexivity.
Defined.

(** ** Geocoder *)

Lemma between_finite lo x hi :
  PyNum.between lo x hi = true ->
  x = PyNum.Finite (PyNum.value x) /\ (lo <= PyNum.value x)%Q /\ (PyNum.value x <= hi)%Q.
Proof.
  destruct x as [q | b |]; simpl; try discriminate.
  rewrite andb_true_iff, !Qle_bool_iff. auto.
Qed.

(** The geocoder of the first part is the generic one at the ASCII
    builtins. *)
Lemma get_location_ascii city coords :
  Generic.get_location ascii_builtins city coords = get_location city coords.
Proof. reflexivity. Qed.

(** C8. Coordinates are accepted only when the string splits at commas into
    exactly two tokens, both of which [float()] reads, once stripped, as
    numbers, the first within [-90, 90] and the second within [-180, 180].
    "200,50", which [float()] reads as 200 and 50, is rejected for its
    range and "47.6,-122.3,extra" for its number of tokens, both with an
    error message and exit status 1.  This holds whatever else [str.strip]
    and [float()] accept. *)
Theorem coordinate_parsing (B : builtins) :
  (forall city coords out lat lng location_name,
     PyStr.truthy coords = true ->
     Generic.get_location B city (Some coords)
     = (out, Returned (lat, lng, location_name)) ->
     exists token1 token2,
       PyList.split "," coords = [token1; token2]
       /\ float_of_str B (str_strip B token1) = Some (PyNum.Finite lat)
       /\ float_of_str B (str_strip B token2) = Some (PyNum.Finite lng)
       /\ (- (90 # 1) <= lat)%Q /\ (lat <= 90 # 1)%Q
       /\ (- (180 # 1) <= lng)%Q /\ (lng <= 180 # 1)%Q)
  /\ (forall city lat lng,
        float_of_str B (str_strip B "200") = Some (PyNum.Finite lat) ->
        (lat == 200 # 1)%Q ->
        float_of_str B (str_strip B "50") = Some lng ->
        Generic.get_location B city (Some "200,50")
        = ([Print (ErrorParsingCoordinates InvalidRange)], Exited 1))
  /\ (forall city,
        Generic.get_location B city (Some "47.6,-122.3,extra")
        = ([Print (ErrorParsingCoordinates CoordinatesFormat)], Exited 1)).
Proof.
  split; [|split].
  - intros city coords out lat lng location_name Hgiven.
    unfold Generic.get_location. cbn [PyStr.truthy_opt get]. rewrite Hgiven.
    unfold Generic.parse_coords.
    destruct (PyList.split "," coords) as [|token1 [|token2 [|token3 rest]]];
      try discriminate.
    destruct (float_of_str B (str_strip B token1)) as [x|] eqn:Hf1; [|discriminate].
    destruct (float_of_str B (str_strip B token2)) as [y|] eqn:Hf2; [|discriminate].
    destruct (PyNum.between _ x _) eqn:Hx; [|discriminate].
    destruct (PyNum.between _ y _) eqn:Hy; [|discriminate].
    cbn [negb orb]. intros [= _ <- <- _].
    apply between_finite in Hx as (Hx & Hx1 & Hx2).
    apply between_finite in Hy as (Hy & Hy1 & Hy2).
    exists token1, token2. rewrite <- Hx, <- Hy. repeat split; assumption.
  - intros city lat lng Hlat Hval Hlng.
    unfold Generic.get_location. cbn [PyStr.truthy_opt PyStr.truthy get].
    unfold Generic.parse_coords.
    change (PyList.split "," "200,50") with ["200"; "50"]%string.
    cbv iota. rewrite Hlat, Hlng.
    assert (PyNum.between (- (90 # 1)) (PyNum.Finite lat) (90 # 1) = false) as ->;
      [|reflexivity].
    cbn [PyNum.between]. apply andb_false_iff. right.
    destruct (Qle_bool lat (90 # 1)) eqn:E; [|reflexivity].
    apply Qle_bool_iff in E. rewrite Hval in E.
    unfold Qle in E. simpl in E. lia.
  - intros city. reflexivity.
Qed.

Lemma coordinate_parsing_witness :
  (exists token1 token2,
     PyList.split "," "47.6, -122.3" = [token1; token2]
     /\ PyNum.float (PyNum.strip token1) = Some (PyNum.Finite (476 # 10))
     /\ PyNum.float (PyNum.strip token2) = Some (PyNum.Finite (- (1223 # 10)))
     /\ (- (90 # 1) <= 476 # 10)%Q /\ (476 # 10 <= 90 # 1)%Q
     /\ (- (180 # 1) <= - (1223 # 10))%Q /\ (- (1223 # 10) <= 180 # 1)%Q)
  /\ Generic.get_location ascii_builtins None (Some "200,50")
     = ([Print (ErrorParsingCoordinates InvalidRange)], Exited 1).
Proof.
  split.
  - apply (proj1 (coordinate_parsing ascii_builtins) None "47.6, -122.3" []
             (476 # 10) (- (1223 # 10))
             (LabelCoords (476 # 10) (- (1223 # 10)))).
    + reflexivity.
    + reflexivity.
  - apply (proj1 (proj2 (coordinate_parsing ascii_builtins)) None
             (200 # 1) (PyNum.Finite (50 # 1))).
    + reflexivity.
    + reflexivity.
    + reflexivity.
Defined.

Lemma lookup_absent {V : Type} key (d : list (string * V)) :
  (forall known, In known (PyList.keys d) -> known <> key) ->
  PyList.lookup key d = None.
Proof.
  induction d as [|[k v] d IH]; simpl; intros H; [reflexivity|].
  destruct (String.eqb_spec key k) as [-> | Hne].
  - exfalso. apply (H k); auto.
  - apply IH. intros known Hin. apply H. auto.
Qed.

(** C9. A city whose name, once [str.lower] has folded its case, is not a
    name of the table makes the geocoder print an error that lists every
    known name in ascending order and exit with status 1; without city and
    without coordinates the result is the fixed location of Seattle.  This
    holds whatever [str.lower] does to the characters of the name. *)
Theorem unknown_city_and_default (B : builtins) :
  (forall city coords,
     PyStr.truthy_opt coords = false ->
     PyStr.truthy city = true ->
     ~ In (str_lower B city) (PyList.keys CITY_COORDINATES) ->
     exists names,
       Permutation names (PyList.keys CITY_COORDINATES)
       /\ StronglySorted (fun a b => String.leb a b = true) names
       /\ Generic.get_location B (Some city) coords
          = ([ Print (CityNotFound city);
               Print (AvailableCities (String.concat ", " names));
               Print CoordsHint ],
             Exited 1))
  /\ (forall city coords,
        PyStr.truthy_opt city = false ->
        PyStr.truthy_opt coords = false ->
        Generic.get_location B city coords
        = ([], Returned (476062 # 10000, - (1223321 # 10000), LabelText "Seattle"))).
Proof.
  split.
  - intros city coords Hcoords Hcity Hunknown.
    exists (PyList.sorted String.ltb (fun k => k) false (PyList.keys CITY_COORDINATES)).
    split; [apply sorted_perm|]. split.
    + vm_compute. repeat constructor.
    + unfold Generic.get_location. rewrite Hcoords. cbn [PyStr.truthy_opt get].
      rewrite Hcity, lookup_absent; [reflexivity|].
      intros known Hin ->. exact (Hunknown Hin).
  - intros city coords Hcity Hcoords. unfold Generic.get_location.
    rewrite Hcoords, Hcity. reflexivity.
Qed.

Lemma unknown_city_and_default_witness :
  (exists names,
     Permutation names (PyList.keys CITY_COORDINATES)
     /\ StronglySorted (fun a b => String.leb a b = true) names
     /\ Generic.get_location ascii_builtins (Some "Atlantis") None
        = ([ Print (CityNotFound "Atlantis");
             Print (AvailableCities (String.concat ", " names));
             Print CoordsHint ],
           Exited 1))
  /\ Generic.get_location ascii_builtins None (Some EmptyString)
     = ([], Returned (476062 # 10000, - (1223321 # 10000), LabelText "Seattle")).
Proof.
  split.
  - apply (proj1 (unknown_city_and_default ascii_builtins) "Atlantis" None).
    + reflexivity.
    + reflexivity.
    + simpl. intros Hin.
      repeat destruct Hin as [Hin | Hin]; try discriminate Hin. contradiction.
  - apply (proj2 (unknown_city_and_default ascii_builtins)); reflexivity.
Defined.

(** The list of names printed for an unknown city. *)
Example available_cities_atlantis :
  fst (get_location (Some "Atlantis") None)
  = [ Print (CityNotFound "Atlantis");
      Print (AvailableCities
               "atlanta, austin, boston, chicago, dallas, denver, houston, las vegas, los angeles, miami, nashville, new orleans, new york, philadelphia, phoenix, portland, san diego, san francisco, seattle, washington dc");
      Print CoordsHint ].
Proof. reflexivity. Qed.

(** ** A ranking with items short of reviews *)




(** * Further properties *)

(** ** More on the model of [sorted] *)

Section SortedCommutes.
Context {A K : Type}.
Variable lt : K -> K -> bool.
Variable key : A -> K.
Variable reverse : bool.
Hypothesis lt_asym : forall a b, lt a b = true -> lt b a = false.
Hypothesis lt_negtrans :
  forall a b c, lt a b = false -> lt b c = false -> lt a c = false.

#[local] Abbreviation gf := (PyList.goes_first lt key reverse).
#[local] Abbreviation ins := (PyList.insert lt key reverse).
#[local] Abbreviation srt := (PyList.sorted lt key reverse).
#[local] Abbreviation ordered := (StronglySorted (in_order lt key reverse)).

Lemma insert_at_head x l :
  Forall (fun z => gf z x = false) l -> ins x l = x :: l.
Proof.
  destruct l as [|z l]; simpl; [reflexivity|].
  intros H. apply Forall_inv in H. now rewrite H.
Qed.

Lemma sorted_of_sorted s : ordered s -> srt s = s.
Proof.
  induction 1 as [|a s Hs IH Ha]; [reflexivity|].
  change (ins a (srt s) = a :: s). rewrite IH.
  apply insert_at_head. exact Ha.
Qed.

Lemma insert_filter_commute (P : A -> bool) x s :
  ordered s ->
  List.filter P (ins x s)
  = if P x then ins x (List.filter P s) else List.filter P s.
Proof.
  induction 1 as [|y s Hs IH Hy]; simpl.
  - destruct (P x); reflexivity.
  - destruct (gf y x) eqn:E; simpl.
    + rewrite IH. destruct (P y), (P x); simpl; rewrite ?E; reflexivity.
    + assert (Hall : Forall (fun z => gf z x = false) (y :: s)).
      { constructor; [exact E|].
        eapply List.Forall_impl; [|exact Hy].
        intros z Hz. unfold in_order in Hz.
        eapply (goes_first_negtrans lt key reverse lt_negtrans); eassumption. }
      destruct (P x); [|reflexivity].
      symmetry. apply insert_at_head.
      apply List.Forall_forall. intros z Hz.
      change (In z (List.filter P (y :: s))) in Hz.
      apply filter_In in Hz as [Hz _].
      rewrite List.Forall_forall in Hall. now apply Hall.
Qed.

Lemma sorted_filter_commute (P : A -> bool) l :
  List.filter P (srt l) = srt (List.filter P l).
Proof.
  induction l as [|x l IH]; simpl; [reflexivity|].
  rewrite insert_filter_commute
    by (apply sorted_in_order; assumption).
  destruct (P x); simpl; now rewrite IH.
Qed.

End SortedCommutes.

Lemma StronglySorted_app_inv {A} (R : A -> A -> Prop) l1 l2 :
  StronglySorted R (l1 ++ l2) -> Forall (fun a => Forall (R a) l2) l1.
Proof.
  induction l1 as [|a l1 IH]; simpl; intros H; [constructor|].
  apply StronglySorted_inv in H as [H1 H2].
  constructor; [|auto].
  apply List.Forall_forall. intros b Hb.
  rewrite List.Forall_forall in H2. apply H2, in_or_app. auto.
Qed.

Lemma filter_all {A} (P : A -> bool) l :
  Forall (fun a => P a = true) l -> List.filter P l = l.
Proof.
  induction 1 as [|a l Ha Hl IH]; simpl; [reflexivity|].
  now rewrite Ha, IH.
Qed.

Lemma filter_filter_implies {A} (P Q : A -> bool) l :
  (forall a, P a = true -> Q a = true) ->
  List.filter P (List.filter Q l) = List.filter P l.
Proof.
  intros H. induction l as [|a l IH]; simpl; [reflexivity|].
  destruct (Q a) eqn:Eq; simpl; rewrite IH; [reflexivity|].
  destruct (P a) eqn:Ep; [|reflexivity].
  apply H in Ep. congruence.
Qed.

(** ** Ranker *)

(** X1. Ranking a ranked list again with the same thresholds changes
    nothing. *)
Theorem filter_and_rank_idempotent
    (restaurants : list place) (min_rating : Q) (min_reviews : Z) :
  filter_and_rank_restaurants
    (filter_and_rank_restaurants restaurants min_rating min_reviews)
    min_rating min_reviews
  = filter_and_rank_restaurants restaurants min_rating min_reviews.
Proof.
  unfold filter_and_rank_restaurants.
  rewrite (sorted_filter_commute PyNum.Rltb calculate_score true
             Rltb_asym Rltb_negtrans).
  rewrite filter_filter_implies by auto.
  apply sorted_of_sorted.
  apply (sorted_in_order PyNum.Rltb calculate_score true Rltb_asym Rltb_negtrans).
Qed.

(** X2. Raising the thresholds on a ranked list gives the list ranked with
    the raised thresholds: filtering the output of one ranking by stricter
    thresholds needs no new sort. *)
Theorem filter_and_rank_stricter
    (restaurants : list place) (r1 r2 : Q) (n1 n2 : Z) :
  (r1 <= r2)%Q -> (n1 <= n2)%Z ->
  List.filter (meets_thresholds r2 n2)
    (filter_and_rank_restaurants restaurants r1 n1)
  = filter_and_rank_restaurants restaurants r2 n2.
Proof.
  intros Hr Hn. unfold filter_and_rank_restaurants.
  rewrite (sorted_filter_commute PyNum.Rltb calculate_score true
             Rltb_asym Rltb_negtrans).
  rewrite filter_filter_implies; [reflexivity|].
  intros a. rewrite !meets_thresholds_iff. intros [H1 H2]. split.
  - eapply Qle_trans; eassumption.
  - lia.
Qed.

Lemma filter_and_rank_stricter_witness :
  List.filter (meets_thresholds (49 # 10) 1)
    (filter_and_rank_restaurants [newcomer; favourite; unrated] (0 # 1) 0)
  = filter_and_rank_restaurants [newcomer; favourite; unrated] (49 # 10) 1.
Proof.
  apply (filter_and_rank_stricter [newcomer; favourite; unrated]
           (0 # 1) (49 # 10) 0 1).
  - unfold Qle. simpl. lia.
  - lia.
Defined.

(** X3. The restaurants listed are the best of the ranking: whatever the
    number [k] of entries shown, every item among the first [k] scores at
    least as much as every item after them. *)
Theorem top_entries_score_highest
    (restaurants : list place) (min_rating : Q) (min_reviews : Z) (k : nat) :
  let ranked := filter_and_rank_restaurants restaurants min_rating min_reviews in
  Forall (fun shown =>
            Forall (fun hidden =>
                      (calculate_score shown >= calculate_score hidden)%R)
                   (skipn k ranked))
         (firstn k ranked).
Proof.
  intros ranked.
  apply (StronglySorted_app_inv ranked_before).
  rewrite firstn_skipn. apply ranked_sorted.
Qed.

Lemma log10_le u v : (1 <= u)%R -> (u <= v)%R -> (PyNum.log10 u <= PyNum.log10 v)%R.
Proof.
  intros Hu Huv. unfold PyNum.log10, Rdiv.
  apply Rmult_le_compat_r; [left; apply Rinv_0_lt_compat, ln_10_pos|].
  destruct Huv as [Hlt | ->]; [|apply Rle_refl].
  left. apply ln_increasing; lra.
Qed.

Lemma log10_nonneg u : (1 <= u)%R -> (0 <= PyNum.log10 u)%R.
Proof. intros Hu. rewrite <- log10_1. now apply log10_le; [lra|]. Qed.

Lemma reviews_factor_ge_1 n : (1 <= IZR (Z.max n 1))%R.
Proof. apply (IZR_le 1). lia. Qed.

(** X4. The score never decreases when the rating and the review count
    grow: for a non-negative rating, a higher rating with at least as many
    reviews scores at least as much, and strictly more once there are two
    reviews or more. *)
Theorem score_monotone (a b : place) :
  (0 <= score_rating a)%Q ->
  (score_reviews a <= score_reviews b)%Z ->
  ((score_rating a <= score_rating b)%Q ->
   (calculate_score a <= calculate_score b)%R)
  /\ ((score_rating a < score_rating b)%Q -> (2 <= score_reviews a)%Z ->
      (calculate_score a < calculate_score b)%R).
Proof.
  unfold score_rating, score_reviews, calculate_score.
  set (ra := get (rating a) 0%Q). set (rb := get (rating b) 0%Q).
  set (na := get (user_ratings_total a) 1%Z).
  set (nb := get (user_ratings_total b) 1%Z).
  intros H0 Hn.
  apply Qle_Rle in H0. rewrite RMicromega.Q2R_0 in H0.
  assert (Hla : (0 <= PyNum.log10 (IZR (Z.max na 1)))%R)
    by apply log10_nonneg, reviews_factor_ge_1.
  assert (Hlab : (PyNum.log10 (IZR (Z.max na 1)) <= PyNum.log10 (IZR (Z.max nb 1)))%R).
  { apply log10_le; [apply reviews_factor_ge_1|]. apply IZR_le. lia. }
  split.
  - intros Hr. apply Qle_Rle in Hr.
    apply Rmult_le_compat; try assumption.
    + apply pow_le. assumption.
    + apply pow_incr. split; assumption.
  - intros Hr Hna. apply Qlt_Rlt in Hr.
    assert (Hpos : (0 < PyNum.log10 (IZR (Z.max na 1)))%R).
    { apply log10_pos. apply (IZR_lt 1). lia. }
    apply Rle_lt_trans
      with (Q2R ra ^ 2 * PyNum.log10 (IZR (Z.max nb 1)))%R.
    + apply Rmult_le_compat_l; [apply pow_le|]; assumption.
    + apply Rmult_lt_compat_r; [lra|]. simpl. nra.
Qed.

Lemma score_monotone_witness :
  (calculate_score (Place None (Some (40 # 10)) None None None)
   <= calculate_score favourite)%R
  /\ (calculate_score (Place None (Some (40 # 10)) (Some 50%Z) None None)
      < calculate_score favourite)%R.
Proof.
  split.
  - apply (proj1 (score_monotone
                    (Place None (Some (40 # 10)) None None None) favourite
                    ltac:(unfold Qle; simpl; lia)
                    ltac:(unfold score_reviews; simpl; lia))).
    unfold Qle. simpl. lia.
  - apply (proj2 (score_monotone
                    (Place None (Some (40 # 10)) (Some 50%Z) None None) favourite
                    ltac:(unfold Qle; simpl; lia)
                    ltac:(unfold score_reviews; simpl; lia))).
    + unfold Qlt. simpl. lia.
    + unfold score_reviews. simpl. lia.
Defined.

(** X5. The score is never negative, and it is zero exactly for the items
    whose rating is 0 (or missing) or whose review count is 1 or less (or
    missing): only those items tie at the bottom of a ranking. *)
Theorem score_zero_iff (p : place) :
  (0 <= calculate_score p)%R
  /\ (calculate_score p = 0%R <->
      (score_rating p == 0)%Q \/ (score_reviews p <= 1)%Z).
Proof.
  split; [apply calculate_score_nonneg|].
  unfold score_rating, score_reviews, calculate_score.
  set (r := get (rating p) 0%Q). set (n := get (user_ratings_total p) 1%Z).
  split.
  - intros H. apply Rmult_integral in H as [H | H].
    + left. apply eqR_Qeq. rewrite RMicromega.Q2R_0.
      simpl in H. nra.
    + right. unfold PyNum.log10, Rdiv in H.
      apply Rmult_integral in H as [H | H].
      * destruct (Z.le_gt_cases n 1) as [Hle | Hgt]; [assumption|].
        exfalso. apply (ln_neq_0 (IZR (Z.max n 1))); [| |assumption].
        -- apply Rgt_not_eq. apply (IZR_lt 1). lia.
        -- apply (IZR_lt 0). lia.
      * exfalso. pose proof ln_10_pos as Hpos.
        apply Rinv_0_lt_compat in Hpos. lra.
  - intros [H | H].
    + apply Qeq_eqR in H. rewrite RMicromega.Q2R_0 in H. rewrite H.
      simpl. ring.
    + rewrite Z.max_r by lia. rewrite log10_1. ring.
Qed.


(** ** Classifier *)

Lemma string_app_assoc (a b c : string) :
  ((a ++ b) ++ c)%string = (a ++ b ++ c)%string.
Proof.
  induction a as [|x a IH]; [reflexivity|].
  change (String x ((a ++ b) ++ c)%string = String x (a ++ b ++ c)%string).
  now rewrite IH.
Qed.

(** X6. The classification of a place depends only on the set of its type
    tags and on its name with the case of letters ignored: the order and
    the repetition of tags, and the capitals of the name, do not matter. *)
Theorem classification_invariant (a b : place) :
  (forall t, In t (get (types a) []) <-> In t (get (types b) [])) ->
  PyStr.lower (get (name a) EmptyString) = PyStr.lower (get (name b) EmptyString) ->
  is_true_restaurant a = is_true_restaurant b.
Proof.
  intros Htags Hname. unfold is_true_restaurant. rewrite Hname.
  assert (Hsame : forall S : gset string,
             nonempty (list_to_set (get (types a) []) ∩ S)
             = nonempty (list_to_set (get (types b) []) ∩ S)).
  { intros S. apply eq_true_iff_eq. rewrite !nonempty_intersection.
    split; intros (t & Ht & HS); exists t; split; auto; now apply Htags. }
  now rewrite !Hsame.
Qed.

Lemma classification_invariant_witness :
  is_true_restaurant
    (Place (Some "SAM'S SUSHI") None None None (Some ["bar"; "food"; "bar"]))
  = is_true_restaurant
      (Place (Some "Sam's Sushi") None None None (Some ["food"; "bar"])).
Proof.
  apply classification_invariant.
  - intros t. simpl. tauto.
  - reflexivity.
Defined.

(** X7. The keyword test looks for substrings: a place that is accepted
    stays accepted when text is added before and after its name. *)
Theorem accepted_when_name_extended (p : place) (before after : string) :
  is_true_restaurant p = true ->
  is_true_restaurant
    (rename p (before ++ get (name p) EmptyString ++ after)%string) = true.
Proof.
  unfold is_true_restaurant, rename. cbn [types name get].
  destruct (nonempty (_ ∩ EXCLUDE_TYPES)); [discriminate|].
  destruct (nonempty (_ ∩ RESTAURANT_TYPES)); [reflexivity|].
  rewrite !existsb_exists. intros (keyword & Hin & Hk).
  exists keyword. split; [assumption|].
  apply contains_iff in Hk as (pre & post & Hk).
  apply contains_iff.
  exists (PyStr.lower before ++ pre)%string, (post ++ PyStr.lower after)%string.
  rewrite !lower_app, Hk, !string_app_assoc. reflexivity.
Qed.

Lemma accepted_when_name_extended_witness :
  is_true_restaurant
    (rename (Place (Some "Grill") None None None None)
            ("The " ++ "Grill" ++ "parzer Museum")%string) = true.
Proof.
  apply (accepted_when_name_extended
           (Place (Some "Grill") None None None None) "The " "parzer Museum").
  reflexivity.
Defined.

(** ** Presenter *)

Lemma entry_names_app t1 t2 : entry_names (t1 ++ t2) = entry_names t1 ++ entry_names t2.
Proof.
  induction t1 as [|[m|s|p] t1 IH]; simpl; [reflexivity| | |]; rewrite ?IH; auto.
  destruct m; simpl; auto.
Qed.

Lemma entry_locations_app t1 t2 :
  entry_locations (t1 ++ t2) = entry_locations t1 ++ entry_locations t2.
Proof.
  induction t1 as [|[m|s|p] t1 IH]; simpl; [reflexivity| | |]; rewrite ?IH; auto.
  destruct m; simpl; auto.
Qed.

Lemma announced_app t1 t2 : announced (t1 ++ t2) = announced t1 ++ announced t2.
Proof.
  induction t1 as [|[m|s|p] t1 IH]; simpl; [reflexivity| | |]; rewrite ?IH; auto.
  destruct m; simpl; auto.
Qed.

(** The lines of one entry: name, rating, an optional type line, address
    and a blank line. *)
Lemma display_entry_shape show_types idx r :
  exists type_line address,
    display_entry show_types idx r
    = [ Print (EntryName idx (get (name r) "Unknown"));
        Print (EntryRating (get (rating r) 0%Q) (get (user_ratings_total r) 0%Z)) ]
      ++ type_line
      ++ [ Print (EntryLocation address); Print Blank ]
    /\ (type_line = [] \/ exists shown, type_line = [Print (EntryType shown)])
    /\ (show_types = false -> type_line = [])
    /\ address
       = (let a := get (vicinity r) "Address not available" in
          if (60 <? PyStr.len a)%nat
          then (PyStr.take 57 a ++ "...")%string else a).
Proof.
  unfold display_entry. do 2 eexists. split; [reflexivity|].
  split; [|split; [|reflexivity]].
  - destruct show_types; [|auto].
    destruct (List.filter _ _); [auto | right; eauto].
  - intros ->. reflexivity.
Qed.

Lemma entry_names_display_entries show_types idx l :
  entry_names (display_entries show_types idx l)
  = combine (seq idx (List.length l)) (map (fun r => get (name r) "Unknown") l).
Proof.
  revert idx. induction l as [|r l IH]; intros idx; [reflexivity|].
  cbn [display_entries List.length seq map combine].
  destruct (display_entry_shape show_types idx r)
    as (type_line & address & -> & Htype & _).
  rewrite entry_names_app, IH. cbn [app entry_names].
  rewrite entry_names_app.
  destruct Htype as [-> | [shown ->]]; reflexivity.
Qed.

(** X8. The listing numbers the restaurants from 1 in ranking order and
    names each one, "Unknown" standing for a missing name; it holds the
    first [MAX_DISPLAY] restaurants (for a negative [MAX_DISPLAY], all but
    the last [- MAX_DISPLAY]). *)
Theorem listing_is_numbered
    (MAX_DISPLAY : Z) (restaurants : list place) (location_name : label)
    (radius_miles min_rating : Q) (min_reviews : Z) (total_fetched : nat)
    (show_types : bool) :
  let shown := PyList.slice_to restaurants MAX_DISPLAY in
  entry_names (display_results MAX_DISPLAY restaurants location_name radius_miles
                               min_rating min_reviews total_fetched show_types)
  = combine (seq 1 (List.length shown))
            (map (fun r => get (name r) "Unknown") shown).
Proof.
  intros shown. unfold display_results. rewrite entry_names_app.
  destruct restaurants as [|r l].
  - unfold shown, PyList.slice_to. destruct (0 <=? MAX_DISPLAY)%Z;
      rewrite firstn_nil; reflexivity.
  - rewrite entry_names_app, entry_names_display_entries. reflexivity.
Qed.

Lemma listing_is_numbered_length MAX_DISPLAY restaurants location_name
    radius_miles min_rating min_reviews total_fetched show_types :
  List.length
    (entry_names (display_results MAX_DISPLAY restaurants location_name radius_miles
                                  min_rating min_reviews total_fetched show_types))
  = List.length (PyList.slice_to restaurants MAX_DISPLAY).
Proof.
  unfold display_results. rewrite entry_names_app.
  destruct restaurants as [|r l].
  - unfold PyList.slice_to. destruct (0 <=? MAX_DISPLAY)%Z;
      rewrite firstn_nil; reflexivity.
  - rewrite entry_names_app, entry_names_display_entries. cbn [entry_names app].
    rewrite length_combine, length_seq, length_map. lia.
Qed.

Lemma announced_display_entries show_types idx l :
  announced (display_entries show_types idx l) = [].
Proof.
  revert idx. induction l as [|r l IH]; intros idx; [reflexivity|].
  cbn [display_entries].
  destruct (display_entry_shape show_types idx r)
    as (type_line & address & -> & Htype & _).
  rewrite announced_app, IH. cbn [app announced].
  rewrite announced_app.
  destruct Htype as [-> | [shown ->]]; reflexivity.
Qed.

(** X9. Above a non-empty listing the announced number of restaurants is
    the number of entries listed whenever [MAX_DISPLAY] is not negative.  A
    negative [MAX_DISPLAY], which the argument checks let through, is
    announced as it is while all but the last [- MAX_DISPLAY] restaurants
    are listed. *)
Theorem announced_count
    (MAX_DISPLAY : Z) (restaurants : list place) (location_name : label)
    (radius_miles min_rating : Q) (min_reviews : Z) (total_fetched : nat)
    (show_types : bool) :
  restaurants <> [] ->
  let t := display_results MAX_DISPLAY restaurants location_name radius_miles
                           min_rating min_reviews total_fetched show_types in
  let listed := List.length (entry_names t) in
  ((0 <= MAX_DISPLAY)%Z -> announced t = [Z.of_nat listed])
  /\ ((MAX_DISPLAY < 0)%Z ->
      announced t = [MAX_DISPLAY]
      /\ listed = (List.length restaurants - Z.to_nat (- MAX_DISPLAY))%nat).
Proof.
  intros Hne t listed.
  assert (Hlisted : listed = List.length (PyList.slice_to restaurants MAX_DISPLAY)).
  { unfold listed, t. rewrite listing_is_numbered_length. reflexivity. }
  assert (Hann : announced t
                 = [Z.min (Z.of_nat (List.length restaurants)) MAX_DISPLAY]).
  { unfold t, display_results. destruct restaurants as [|r l]; [contradiction|].
    rewrite announced_app. cbn [announced app].
    rewrite announced_display_entries. reflexivity. }
  rewrite Hann, Hlisted. unfold PyList.slice_to. split; intros HM.
  - replace (0 <=? MAX_DISPLAY)%Z with true by (symmetry; apply Z.leb_le; lia).
    rewrite length_firstn. f_equal. lia.
  - replace (0 <=? MAX_DISPLAY)%Z with false by (symmetry; apply Z.leb_gt; lia).
    rewrite length_firstn. split; [f_equal; lia | lia].
Qed.

Lemma announced_count_witness :
  let t := display_results (-1) [favourite; newcomer; unrated] (LabelText "Seattle")
                           (20 # 1) (0 # 1) 0 3 false in
  announced t = [(-1)%Z] /\ List.length (entry_names t) = 2%nat.
Proof.
  intros t.
  destruct (announced_count (-1) [favourite; newcomer; unrated] (LabelText "Seattle")
              (20 # 1) (0 # 1) 0 3 false ltac:(discriminate)) as [_ H].
  apply H. reflexivity.
Defined.

Lemma len_app (a b : string) :
  PyStr.len (a ++ b)%string = (PyStr.len a + PyStr.len b)%nat.
Proof.
  induction a as [|x a IH]; [reflexivity|].
  change (PyStr.len (String x (a ++ b)%string)
          = (PyStr.len (String x a) + PyStr.len b)%nat).
  cbn [PyStr.len]. destruct (PyStr.is_continuation x); rewrite IH; reflexivity.
Qed.

Lemma take_prefix n s :
  (n <= PyStr.len s)%nat ->
  PyStr.len (PyStr.take n s) = n
  /\ exists tail, s = (PyStr.take n s ++ tail)%string /\ starts_character tail.
Proof.
  revert n. induction s as [|c s IH]; intros n Hn.
  - simpl in Hn. assert (n = 0%nat) as -> by lia.
    split; [reflexivity|]. exists EmptyString. split; [reflexivity | exact I].
  - cbn [PyStr.len] in Hn. cbn [PyStr.take PyStr.len].
    destruct (PyStr.is_continuation c) eqn:Hc.
    + destruct (IH n Hn) as [Hlen (tail & Htail & Hstart)].
      cbn [PyStr.len]. rewrite Hc. split; [assumption|].
      exists tail. split; [|assumption].
      change (String c s = String c (PyStr.take n s ++ tail)%string).
      now rewrite <- Htail.
    + destruct n as [|n].
      * split; [reflexivity|]. exists (String c s). split; [reflexivity | exact Hc].
      * destruct (IH n) as [Hlen (tail & Htail & Hstart)]; [lia|].
        cbn [PyStr.len]. rewrite Hc, Hlen. split; [reflexivity|].
        exists tail. split; [|assumption].
        change (String c s = String c (PyStr.take n s ++ tail)%string).
        now rewrite <- Htail.
Qed.

Lemma shortened_address (a : string) :
  printed_as a (if (60 <? PyStr.len a)%nat
                then (PyStr.take 57 a ++ "...")%string else a).
Proof.
  unfold printed_as. destruct (Nat.ltb_spec 60 (PyStr.len a)) as [Hlong | Hshort].
  - destruct (take_prefix 57 a) as [Hlen (tail & Htail & Hstart)]; [lia|].
    split; [|split].
    + rewrite len_app, Hlen. simpl. lia.
    + intros H. lia.
    + intros _. exists (PyStr.take 57 a), tail. auto.
  - split; [assumption|]. split; [reflexivity|]. intros H. lia.
Qed.

Lemma entry_locations_display_entries show_types idx l :
  Forall2 (fun r shown => printed_as (get (vicinity r) "Address not available") shown)
          l (entry_locations (display_entries show_types idx l)).
Proof.
  revert idx. induction l as [|r l IH]; intros idx; [constructor|].
  cbn [display_entries].
  destruct (display_entry_shape show_types idx r)
    as (type_line & address & -> & Htype & _ & ->).
  rewrite entry_locations_app. cbn [app entry_locations].
  rewrite entry_locations_app.
  replace (entry_locations type_line) with (@nil string)
    by (destruct Htype as [-> | [shown ->]]; reflexivity).
  cbn [app entry_locations].
  constructor; [apply shortened_address | apply IH].
Qed.

(** X10. Every listed restaurant gets one address line of at most 60
    characters: the address itself when it is that short ("Address not
    available" when missing), otherwise its first 57 characters followed by
    three dots.  The characters of the address are counted, so that an
    address of 60 accented letters is printed whole. *)
Theorem addresses_fit
    (MAX_DISPLAY : Z) (restaurants : list place) (location_name : label)
    (radius_miles min_rating : Q) (min_reviews : Z) (total_fetched : nat)
    (show_types : bool) :
  Forall2 (fun r shown => printed_as (get (vicinity r) "Address not available") shown)
          (PyList.slice_to restaurants MAX_DISPLAY)
          (entry_locations
             (display_results MAX_DISPLAY restaurants location_name radius_miles
                              min_rating min_reviews total_fetched show_types)).
Proof.
  unfold display_results. rewrite entry_locations_app.
  destruct restaurants as [|r l].
  - unfold PyList.slice_to. destruct (0 <=? MAX_DISPLAY)%Z;
      rewrite firstn_nil; constructor.
  - cbn [entry_locations app]. apply entry_locations_display_entries.
Qed.

Lemma display_entries_same_but_types idx l l' :
  Forall2 same_but_types l l' ->
  display_entries false idx l = display_entries false idx l'.
Proof.
  intros H. revert idx.
  induction H as [|a b l l' (Hn & Hr & Hu & Hv) Hl IH]; intros idx; [reflexivity|].
  cbn [display_entries]. rewrite IH. f_equal.
  unfold display_entry. now rewrite Hn, Hr, Hu, Hv.
Qed.

(** X11. Without [--show-types] the output does not depend on the type
    tags: two lists of restaurants that differ only in their tags are
    displayed alike. *)
Theorem types_hidden_by_default
    (MAX_DISPLAY : Z) (l l' : list place) (location_name : label)
    (radius_miles min_rating : Q) (min_reviews : Z) (total_fetched : nat) :
  Forall2 same_but_types l l' ->
  display_results MAX_DISPLAY l location_name radius_miles
                  min_rating min_reviews total_fetched false
  = display_results MAX_DISPLAY l' location_name radius_miles
                    min_rating min_reviews total_fetched false.
Proof.
  intros H. unfold display_results.
  pose proof (Forall2_length _ _ _ H) as Hlen.
  assert (Hslice : Forall2 same_but_types (PyList.slice_to l MAX_DISPLAY)
                                          (PyList.slice_to l' MAX_DISPLAY)).
  { unfold PyList.slice_to. rewrite Hlen.
    destruct (0 <=? MAX_DISPLAY)%Z; now apply Forall2_take. }
  rewrite Hlen. f_equal.
  destruct H as [|a b l l' Hab Hl]; [reflexivity|].
  f_equal. now apply display_entries_same_but_types.
Qed.

Lemma types_hidden_by_default_witness :
  display_results 20 [favourite] (LabelText "Seattle") (20 # 1) (47 # 10) 300 1 false
  = display_results 20
      [Place (Some "Joe's Grill") (Some (48 # 10)) (Some 1000%Z) None
             (Some ["bar"; "night_club"])]
      (LabelText "Seattle") (20 # 1) (47 # 10) 300 1 false.
Proof.
  apply types_hidden_by_default.
  constructor; [|constructor]. repeat split.
Defined.

(** ** Argument checks *)

Lemma validate_arguments_iff args :
  validate_arguments args = inr args <->
  ((1 # 10 <= args_radius args)%Q /\ (args_radius args <= 31 # 1)%Q)
  /\ ((0 # 1 <= args_rating args)%Q /\ (args_rating args <= 5 # 1)%Q)
  /\ (0 <= args_reviews args)%Z.
Proof.
  unfold validate_arguments.
  rewrite <- !Qle_bool_iff, <- !andb_true_iff, <- Z.ltb_ge.
  destruct (Qle_bool (1 # 10) (args_radius args) && Qle_bool (args_radius args) (31 # 1));
    cbn [negb]; [|intuition discriminate].
  destruct (Qle_bool (0 # 1) (args_rating args) && Qle_bool (args_rating args) (5 # 1));
    cbn [negb]; [|intuition discriminate].
  destruct (args_reviews args <? 0)%Z; intuition discriminate.
Qed.

Lemma Qminus_fifth_le (q : Q) : (q - (2 # 10) <= q)%Q.
Proof. destruct q as [a b]. unfold Qle, Qminus, Qplus, Qopp. simpl. nia. Qed.

Lemma Qplus_ten_ge (q : Q) : (q <= q + (10 # 1))%Q.
Proof. destruct q as [a b]. unfold Qle, Qplus. simpl. nia. Qed.

(** X12. The thresholds suggested when nothing matches can be used as they
    are: for arguments that pass the checks of [parse_arguments], the
    suggested reviews, rating and radius pass them too.  The reviews
    threshold never grows and the radius never shrinks; the suggested rating
    is lower than or equal to the current one when that is at least 3.0,
    but it is 3.0, hence stricter, when the current one is below 3.0. *)
Theorem suggestions_are_valid
    (args : arguments) (MAX_DISPLAY : Z) (location_name : label)
    (total_fetched : nat) :
  validate_arguments args = inr args ->
  exists n r d,
    suggestions (display_results MAX_DISPLAY [] location_name (args_radius args)
                   (args_rating args) (args_reviews args) total_fetched
                   (args_show_types args))
    = [(n, r, d)]
    /\ (let relaxed := Arguments (args_api_key args) (args_city args)
                         (args_coords args) d r n (args_show_types args)
                         (args_limit args) in
        validate_arguments relaxed = inr relaxed)
    /\ (n <= args_reviews args)%Z
    /\ (args_radius args <= d)%Q
    /\ ((3 # 1 <= args_rating args)%Q -> (r <= args_rating args)%Q)
    /\ ((args_rating args < 3 # 1)%Q -> (args_rating args < r)%Q).
Proof.
  intros Hvalid. apply validate_arguments_iff in Hvalid
    as ((Hd1 & Hd2) & (Hr1 & Hr2) & Hn).
  do 3 eexists. split; [reflexivity|].
  split; [|split; [|split; [|split]]].
  - apply validate_arguments_iff. cbn [args_radius args_rating args_reviews].
    repeat split.
    + apply Q.min_glb; [|unfold Qle; simpl; lia].
      eapply Qle_trans; [exact Hd1 | apply Qplus_ten_ge].
    + apply Q.le_min_r.
    + eapply Qle_trans; [|apply Q.le_max_r]. unfold Qle. simpl. lia.
    + apply Q.max_lub; [|unfold Qle; simpl; lia].
      eapply Qle_trans; [apply Qminus_fifth_le | exact Hr2].
    + apply Z.div_pos; lia.
  - apply Z.div_le_upper_bound; lia.
  - apply Q.min_glb; [apply Qplus_ten_ge | exact Hd2].
  - intros H3. apply Q.max_lub; [apply Qminus_fifth_le | exact H3].
  - intros H3. eapply Qlt_le_trans; [exact H3 | apply Q.le_max_r].
Qed.

Lemma suggestions_are_valid_witness :
  exists n r d,
    suggestions (display_results 20 [] (LabelText "Seattle") (25 # 1) (2 # 1) 301 0 false)
    = [(n, r, d)]
    /\ (let relaxed := Arguments "key" None None d r n false 20 in
        validate_arguments relaxed = inr relaxed)
    /\ (n <= 301)%Z
    /\ (25 # 1 <= d)%Q
    /\ ((3 # 1 <= 2 # 1)%Q -> (r <= 2 # 1)%Q)
    /\ ((2 # 1 < 3 # 1)%Q -> (2 # 1 < r)%Q).
Proof.
  apply (suggestions_are_valid (Arguments "key" None None (25 # 1) (2 # 1) 301 false 20)
           20 (LabelText "Seattle") 0).
  reflexivity.
Defined.

(** ** Radius conversion *)

Lemma int_monotone (x y : Q) : (x <= y)%Q -> (PyNum.int x <= PyNum.int y)%Z.
Proof.
  destruct x as [a b], y as [c d]. unfold Qle, PyNum.int. simpl. intros H.
  rewrite <- (Z.quot_mul_cancel_r a (Z.pos b) (Z.pos d)) by lia.
  rewrite <- (Z.quot_mul_cancel_r c (Z.pos d) (Z.pos b)) by lia.
  rewrite (Z.mul_comm (Z.pos d) (Z.pos b)).
  apply Z.quot_le_mono; lia.
Qed.

Lemma int_above (x : Q) (n : Z) :
  (0 <= n)%Z -> ((n < PyNum.int x)%Z <-> (inject_Z (n + 1) <= x)%Q).
Proof.
  intros Hn. destruct (int_truncates x) as [Hpos Hneg]. split.
  - intros H. destruct (Qlt_le_dec x 0) as [Hx | Hx].
    + destruct (Hneg (Qlt_le_weak _ _ Hx)) as [H1 _].
      exfalso. assert (inject_Z (PyNum.int x) - 1 < 0)%Q as H2
        by (eapply Qlt_trans; eassumption).
      unfold Qlt, Qminus, Qplus, Qopp, inject_Z in H2. simpl in H2. lia.
    + destruct (Hpos Hx) as [H1 _]. eapply Qle_trans; [|exact H1].
      unfold Qle, inject_Z. simpl. lia.
  - intros H.
    assert (Hx : (0 <= x)%Q).
    { eapply Qle_trans; [|exact H]. unfold Qle, inject_Z. simpl. lia. }
    destruct (Hpos Hx) as [_ H2].
    assert (inject_Z (n + 1) < inject_Z (PyNum.int x) + 1)%Q as H3
      by (eapply Qle_lt_trans; eassumption).
    unfold Qlt, Qplus, inject_Z in H3. simpl in H3. lia.
Qed.


(** X13. The converted radius never decreases when the double
    [miles * 1609.34] grows, and it exceeds the limit of 50000, which is
    when the fetcher clamps it, exactly when that double reaches 50001.
    This holds however the product is rounded: a radius whose exact product
    is below 50001 is clamped when the double is 50001. *)
Theorem meters_monotone_and_clamp_threshold (mul : Q -> Q -> PyNum.pyfloat) :
  (forall a b x y,
     mul a Generic.METERS_PER_MILE = PyNum.Finite x ->
     mul b Generic.METERS_PER_MILE = PyNum.Finite y ->
     (x <= y)%Q ->
     exists m n,
       Generic.miles_to_meters mul a = Some m
       /\ Generic.miles_to_meters mul b = Some n
       /\ (m <= n)%Z)
  /\ (forall miles x,
        mul miles Generic.METERS_PER_MILE = PyNum.Finite x ->
        exists m,
          Generic.miles_to_meters mul miles = Some m
          /\ ((50000 < m)%Z <-> (50001 # 1 <= x)%Q)).
Proof.
  split.
  - intros a b x y Ha Hb Hxy. unfold Generic.miles_to_meters. rewrite Ha, Hb.
    exists (PyNum.int x), (PyNum.int y). split; [reflexivity|].
    split; [reflexivity|]. now apply int_monotone.
  - intros miles x Hx. unfold Generic.miles_to_meters. rewrite Hx.
    exists (PyNum.int x). split; [reflexivity|].
    apply (int_above x 50000). lia.
Qed.

Lemma meters_monotone_and_clamp_threshold_witness :
  let a := 8739798026865869 # 281474976710656 in
  let b := 1093152341216703 # 35184372088832 in
  (exists m n,
     Generic.miles_to_meters PyNum.mul a = Some m
     /\ Generic.miles_to_meters PyNum.mul b = Some n
     /\ (m <= n)%Z)
  /\ (exists m,
        Generic.miles_to_meters PyNum.mul b = Some m
        /\ ((50000 < m)%Z <-> (50001 # 1 <= 50001 # 1)%Q)).
Proof.
  intros a b. split.
  - apply (proj1 (meters_monotone_and_clamp_threshold PyNum.mul) a b
             (3433912733534257 # 68719476736) (50001 # 1)).
    + vm_compute. reflexivity.
    + vm_compute. reflexivity.
    + unfold Qle. simpl. lia.
  - apply (proj2 (meters_monotone_and_clamp_threshold PyNum.mul) b (50001 # 1)).
    vm_compute. reflexivity.
Defined.

(** ** The whole run *)

Lemma plain_lines_silent t :
  Forall plain_line t ->
  requests_of t = [] /\ clamp_notices t = 0%nat /\ total_sleep t = 0%Z
  /\ filtered_out_total t = 0%nat.
Proof.
  induction 1 as [|e t He Ht (IH1 & IH2 & IH3 & IH4)]; [auto|].
  destruct e as [m | s | p]; try contradiction.
  destruct m; try contradiction; simpl; auto.
Qed.

Lemma display_entries_plain show_types idx l :
  Forall plain_line (display_entries show_types idx l).
Proof.
  revert idx. induction l as [|r l IH]; intros idx; [constructor|].
  cbn [display_entries].
  destruct (display_entry_shape show_types idx r)
    as (type_line & address & -> & Htype & _).
  apply Forall_app. split; [|apply IH].
  repeat (constructor; [exact I|]).
  apply Forall_app. split.
  - destruct Htype as [-> | [shown ->]]; repeat constructor.
  - repeat constructor.
Qed.

Lemma display_results_plain MAX_DISPLAY restaurants location_name radius_miles
    min_rating min_reviews total_fetched show_types :
  Forall plain_line
    (display_results MAX_DISPLAY restaurants location_name radius_miles
                     min_rating min_reviews total_fetched show_types).
Proof.
  unfold display_results. apply Forall_app. split; [repeat constructor|].
  destruct restaurants; [repeat constructor|].
  apply Forall_app. split; [repeat constructor | apply display_entries_plain].
Qed.

(** The two ways [get_location] ends: an error message and exit status 1,
    or a location and no output. *)
Lemma get_location_cases city coords :
  (exists out, get_location city coords = (out, Exited 1)
               /\ out <> [] /\ Forall plain_line out)
  \/ (exists loc, get_location city coords = ([], Returned loc)).
Proof.
  unfold get_location.
  destruct (PyStr.truthy_opt coords).
  - destruct (parse_coords _); [left | right; eauto].
    eexists. split; [reflexivity|]. split; [discriminate | repeat constructor].
  - destruct (PyStr.truthy_opt city).
    + destruct (PyList.lookup _ _) as [[lat lng]|]; [right; eauto | left].
      eexists. split; [reflexivity|]. split; [discriminate | repeat constructor].
    + right. cbn. eauto.
Qed.

(** A run with a resolved location: plain lines, the log of the fetcher,
    plain lines. *)
Lemma main_resolved api args lat lng location_name :
  get_location (args_city args) (args_coords args)
  = ([], Returned (lat, lng, location_name)) ->
  let run := fetch_all_restaurants api lat lng (args_radius args)
                                   (args_api_key args) in
  exists pre post,
    main api args = (pre ++ fst run ++ post, Returned tt)
    /\ Forall plain_line pre /\ Forall plain_line post
    /\ post = Print (Retrieved (List.length (snd run)))
              :: display_results (args_limit args)
                   (filter_and_rank_restaurants (snd run) (args_rating args)
                                                (args_reviews args))
                   location_name (args_radius args) (args_rating args)
                   (args_reviews args) (List.length (snd run))
                   (args_show_types args).
Proof.
  intros Hloc run. unfold main. rewrite Hloc. fold run.
  destruct run as [fetch_log all]. cbn [fst snd].
  do 2 eexists. split; [reflexivity|]. split; [repeat constructor|].
  split; [|reflexivity].
  constructor; [exact I | apply display_results_plain].
Qed.

Lemma silent_around (pre mid post : trace) :
  Forall plain_line pre -> Forall plain_line post ->
  requests_of (pre ++ mid ++ post) = requests_of mid
  /\ clamp_notices (pre ++ mid ++ post) = clamp_notices mid
  /\ total_sleep (pre ++ mid ++ post) = total_sleep mid.
Proof.
  intros Hpre Hpost.
  apply plain_lines_silent in Hpre as (Hp1 & Hp2 & Hp3 & _).
  apply plain_lines_silent in Hpost as (Hq1 & Hq2 & Hq3 & _).
  assert (Hsleep : forall t1 t2, total_sleep (t1 ++ t2)
                                 = (total_sleep t1 + total_sleep t2)%Z).
  { intros t1 t2. induction t1 as [|[m|z|p] t1 IH]; simpl; rewrite ?IH; lia. }
  rewrite !requests_of_app, !clamp_notices_app, !Hsleep.
  rewrite Hp1, Hp2, Hp3, Hq1, Hq2, Hq3, app_nil_r. simpl.
  repeat split; lia.
Qed.

(** X14. A location that cannot be resolved ends the run with exit status 1
    before anything is requested from the API: only the error lines are
    printed.  Once the location is resolved the run always returns
    normally, whatever the API answers, after one to three requests. *)
Theorem main_exit_behaviour
    (api : nat -> Params.t -> http_result) (args : arguments) :
  match snd (get_location (args_city args) (args_coords args)) with
  | Exited code =>
      main api args = (fst (get_location (args_city args) (args_coords args)), Exited 1)
      /\ code = 1%Z
      /\ fst (main api args) <> []
      /\ requests_of (fst (main api args)) = []
  | Returned _ =>
      snd (main api args) = Returned tt
      /\ (1 <= List.length (requests_of (fst (main api args))) <= 3)%nat
  end.
Proof.
  destruct (get_location_cases (args_city args) (args_coords args))
    as [(out & Hloc & Hne & Hplain) | ([[lat lng] location_name] & Hloc)].
  - rewrite Hloc. cbn [fst snd]. unfold main. rewrite Hloc. cbn [fst].
    repeat split; auto. now apply plain_lines_silent.
  - rewrite Hloc. cbn [snd].
    destruct (main_resolved api args lat lng location_name Hloc)
      as (pre & post & -> & Hpre & Hpost & _).
    cbn [fst snd]. split; [reflexivity|].
    destruct (silent_around pre
                (fst (fetch_all_restaurants api lat lng (args_radius args)
                        (args_api_key args))) post Hpre Hpost) as [-> _].
    rewrite fetch_requests, length_map.
    split; [simpl; lia | apply exchanges_length].
Qed.



(** ** Paginator / fetcher *)

Lemma status_ok_iff status :
  status_ok status = true <-> status = Some "OK" \/ status = Some "ZERO_RESULTS".
Proof.
  unfold status_ok. destruct status as [s|].
  - rewrite orb_true_iff, !String.eqb_eq.
    split; (intros [H | H]; [left | right]; congruence).
  - split; [discriminate | intros [H | H]; discriminate].
Qed.

Lemma continues_Some r token :
  continues r = Some token ->
  exists d, r = Json d /\ status_ok (Response.status d) = true
            /\ PyStr.truthy_opt (Response.next_page_token d) = true
            /\ token = Response.next_page_token d.
Proof.
  destruct r as [e|d]; cbn [continues]; [discriminate|].
  destruct (status_ok (Response.status d)) eqn:Hs; cbn [andb]; [|discriminate].
  destruct (PyStr.truthy_opt (Response.next_page_token d)) eqn:Ht; [|discriminate].
  intros H. injection H as <-. exists d. repeat split; assumption.
Qed.

Lemma total_sleep_app t1 t2 :
  total_sleep (t1 ++ t2) = (total_sleep t1 + total_sleep t2)%Z.
Proof. induction t1 as [|[m|z|p] t1 IH]; simpl; rewrite ?IH; lia. Qed.

Lemma filtered_out_total_app t1 t2 :
  filtered_out_total (t1 ++ t2) = (filtered_out_total t1 + filtered_out_total t2)%nat.
Proof.
  induction t1 as [|[m|z|p] t1 IH]; simpl; rewrite ?IH; auto.
  destruct m; simpl; lia.
Qed.

Lemma total_sleep_report r : total_sleep (report r) = 0%Z.
Proof.
  destruct r as [e|d]; simpl; [reflexivity|].
  destruct (status_ok _); simpl.
  - destruct (_ <? _)%nat; reflexivity.
  - destruct (PyStr.truthy_opt _); reflexivity.
Qed.

Lemma filtered_out_report r :
  (filtered_out_total (report r) + List.length (page_items r))%nat = page_size r.
Proof.
  destruct r as [e|d]; simpl; [reflexivity|].
  destruct (status_ok _); simpl.
  - pose proof (filter_length_le is_true_restaurant (get (Response.results d) [])) as Hle.
    destruct (Nat.ltb_spec (List.length (List.filter is_true_restaurant
                                           (get (Response.results d) [])))
                           (List.length (get (Response.results d) [])));
      simpl; lia.
  - destruct (PyStr.truthy_opt _); reflexivity.
Qed.

Section ExchangeChains.
Variable api : nat -> Params.t -> http_result.
Variable api_key : string.

Lemma exchanges_chain n k p i q' r' :
  nth_error (exchanges api api_key n k p) (S i) = Some (q', r') ->
  exists q d,
    nth_error (exchanges api api_key n k p) i = Some (q, Json d)
    /\ status_ok (Response.status d) = true
    /\ PyStr.truthy_opt (Response.next_page_token d) = true
    /\ q' = next_params api_key (Response.next_page_token d).
Proof.
  revert k p i. induction n as [|n IH]; intros k p i; simpl; [discriminate|].
  destruct (continues (api k p)) as [token|] eqn:Hc;
    [|intros H; destruct i; discriminate H].
  destruct i as [|i].
  - destruct n; simpl; [discriminate|]. intros [= <- _].
    apply continues_Some in Hc as (d & Hd & Hs & Ht & ->).
    exists p, d. rewrite Hd. auto.
  - intros H. apply IH in H as (q & d & H & Hs & Ht & Hq).
    exists q, d. auto.
Qed.

Lemma exchanges_next n k p i q r token :
  nth_error (exchanges api api_key n k p) i = Some (q, r) ->
  continues r = Some token -> (S i < n)%nat ->
  nth_error (exchanges api api_key n k p) (S i)
  = Some (next_params api_key token, api (k + S i)%nat (next_params api_key token)).
Proof.
  revert k p i. induction n as [|n IH]; intros k p i; [intros _ _ H; lia|].
  cbn [exchanges]. destruct i as [|i]; cbn [nth_error].
  - intros [= <- <-] Hc Hn. rewrite Hc.
    destruct n; [lia|]. cbn [exchanges nth_error].
    now rewrite Nat.add_1_r.
  - destruct (continues (api k p)) as [token'|];
      [|intros H; destruct i; discriminate H].
    intros H Hc Hn.
    pose proof (IH (S k) _ i H Hc ltac:(lia)) as H'.
    replace (k + S (S i))%nat with (S k + S i)%nat by lia. exact H'.
Qed.

Lemma total_sleep_render_later k ex :
  total_sleep (render (S k) ex) = (2 * Z.of_nat (List.length ex))%Z.
Proof.
  revert k. induction ex as [|[p r] ex IH]; intros k; [reflexivity|].
  cbn [render]. rewrite !total_sleep_app, total_sleep_report, IH.
  cbn [List.length]. unfold prelude. simpl. lia.
Qed.

Lemma accounting_render n k p :
  (filtered_out_total (render k (exchanges api api_key n k p))
   + List.length (flat_map (fun x => page_items (snd x)) (exchanges api api_key n k p)))%nat
  = results_total api k (map fst (exchanges api api_key n k p)).
Proof.
  revert k p. induction n as [|n IH]; intros k p; [reflexivity|].
  cbn [exchanges render flat_map map fst snd results_total].
  rewrite !filtered_out_total_app, length_app.
  assert (Hpre : filtered_out_total (prelude k) = 0%nat)
    by (unfold prelude; destruct (k =? 0)%nat; reflexivity).
  rewrite Hpre. cbn [filtered_out_total].
  pose proof (filtered_out_report (api k p)) as Hrep.
  destruct (continues (api k p)) as [token|].
  - specialize (IH (S k) (next_params api_key token)). lia.
  - simpl. lia.
Qed.

End ExchangeChains.

Lemma items_of_pages_pass api k reqs :
  Forall (fun r => is_true_restaurant r = true) (items_of_pages api k reqs).
Proof.
  revert k. induction reqs as [|q reqs IH]; intros k; [constructor|].
  cbn [items_of_pages]. apply Forall_app. split; [|apply IH].
  unfold page_items. destruct (api k q) as [e|d]; [constructor|].
  destruct (status_ok _); [|constructor].
  apply List.Forall_forall. intros r Hr. now apply filter_In in Hr.
Qed.

(** X16. Whatever the API answers, the fetcher returns the restaurants of
    the pages it requested, page after page and in the order of each page,
    and nothing else: every returned item passes the classifier. *)
Theorem fetched_items_in_page_order
    (api : nat -> Params.t -> http_result) (lat lng radius_miles : Q)
    (api_key : string) :
  let run := fetch_all_restaurants api lat lng radius_miles api_key in
  snd run = items_of_pages api 0 (requests_of (fst run))
  /\ Forall (fun r => is_true_restaurant r = true) (snd run).
Proof.
  intros run.
  assert (H : snd run = items_of_pages api 0 (requests_of (fst run))).
  { unfold run. rewrite fetch_requests, fetch_exchanges. cbn [snd].
    apply exchanges_items. }
  split; [exact H|]. rewrite H. apply items_of_pages_pass.
Qed.

(** X17. Every request carries the API key and the fixed type and keyword
    "restaurant".  The first one carries the location and no token; every
    later one carries no location and exactly the continuation token of the
    response to the request before it, which had status "OK" or
    "ZERO_RESULTS" and a non-empty token. *)
Theorem requests_are_chained
    (api : nat -> Params.t -> http_result) (lat lng radius_miles : Q)
    (api_key : string) (i : nat) (p : Params.t) :
  let reqs := requests_of (fst (fetch_all_restaurants api lat lng radius_miles api_key)) in
  nth_error reqs i = Some p ->
  Params.key p = api_key /\ Params.type p = "restaurant"
  /\ Params.keyword p = "restaurant"
  /\ match i with
     | 0 => Params.location p = Some (lat, lng) /\ Params.pagetoken p = None
     | S j =>
         exists q d,
           nth_error reqs j = Some q /\ api j q = Json d
           /\ (Response.status d = Some "OK" \/ Response.status d = Some "ZERO_RESULTS")
           /\ PyStr.truthy_opt (Response.next_page_token d) = true
           /\ Params.pagetoken p = Response.next_page_token d
           /\ Params.location p = None
     end.
Proof.
  intros reqs. unfold reqs. rewrite fetch_requests.
  set (p1 := first_params lat lng (request_radius radius_miles) api_key).
  rewrite nth_error_map.
  destruct (nth_error _ i) as [[q r]|] eqn:Hex; [|discriminate].
  intros [= <-]. destruct i as [|j].
  - simpl in Hex. injection Hex as <- _. repeat split.
  - destruct (exchanges_chain _ _ _ _ _ _ _ _ Hex) as (q0 & d & Hj & Hs & Ht & ->).
    repeat split.
    exists q0, d. rewrite nth_error_map, Hj.
    apply exchanges_nth in Hj. simpl in Hj.
    apply status_ok_iff in Hs. repeat split; auto.
Qed.

Lemma requests_are_chained_witness :
  let reqs := requests_of (fst (fetch_all_restaurants two_page_api (1 # 1) (2 # 1)
                                  (20 # 1) "key")) in
  exists q d,
    nth_error reqs 0 = Some q /\ two_page_api 0 q = Json d
    /\ (Response.status d = Some "OK" \/ Response.status d = Some "ZERO_RESULTS")
    /\ PyStr.truthy_opt (Response.next_page_token d) = true
    /\ Some "token-2" = Response.next_page_token d.
Proof.
  intros reqs.
  destruct (requests_are_chained two_page_api (1 # 1) (2 # 1) (20 # 1) "key" 1
              (Params.Make "key" "restaurant" "restaurant" None None (Some "token-2")))
    as (_ & _ & _ & q & d & H1 & H2 & H3 & H4 & H5 & _).
  - vm_compute. reflexivity.
  - exists q, d. auto.
Defined.

(** X18. The run sleeps two units before every request but the first, and
    nowhere else: the total delay is twice the number of requests minus
    two, hence at most four units. *)
Theorem total_delay
    (api : nat -> Params.t -> http_result) (lat lng radius_miles : Q)
    (api_key : string) :
  let t := fst (fetch_all_restaurants api lat lng radius_miles api_key) in
  total_sleep t = (2 * Z.of_nat (List.length (requests_of t)) - 2)%Z
  /\ (0 <= total_sleep t <= 4)%Z.
Proof.
  intros t.
  assert (H : total_sleep t = (2 * Z.of_nat (List.length (requests_of t)) - 2)%Z).
  { unfold t. rewrite fetch_requests, fetch_exchanges. cbn [fst].
    rewrite total_sleep_app, length_map.
    assert (Hhd : exists tl,
               exchanges api api_key 3 0
                 (first_params lat lng (request_radius radius_miles) api_key)
               = (first_params lat lng (request_radius radius_miles) api_key,
                  api 0%nat (first_params lat lng (request_radius radius_miles) api_key))
                 :: tl) by (simpl; eauto).
    destruct Hhd as [tl ->]. cbn [render List.length].
    rewrite !total_sleep_app, total_sleep_report, total_sleep_render_later.
    destruct (50000 <? miles_to_meters radius_miles)%Z; cbn; lia. }
  split; [exact H|]. rewrite H.
  assert (1 <= List.length (requests_of t) <= 3)%nat; [|lia].
  unfold t. rewrite fetch_requests, length_map. split.
  - simpl. lia.
  - apply exchanges_length.
Qed.

(** X19. The fetcher does not stop early: after a response with status "OK"
    or "ZERO_RESULTS" and a non-empty continuation token, it sends another
    request unless three have been sent. *)
Theorem next_page_is_requested
    (api : nat -> Params.t -> http_result) (lat lng radius_miles : Q)
    (api_key : string) (i : nat) (p : Params.t) (d : Response.t) :
  let reqs := requests_of (fst (fetch_all_restaurants api lat lng radius_miles api_key)) in
  nth_error reqs i = Some p ->
  api i p = Json d ->
  Response.status d = Some "OK" \/ Response.status d = Some "ZERO_RESULTS" ->
  PyStr.truthy_opt (Response.next_page_token d) = true ->
  (i < 2)%nat ->
  exists next, nth_error reqs (S i) = Some next
               /\ Params.pagetoken next = Response.next_page_token d.
Proof.
  intros reqs. unfold reqs. rewrite fetch_requests.
  set (p1 := first_params lat lng (request_radius radius_miles) api_key).
  rewrite nth_error_map.
  destruct (nth_error _ i) as [[q r]|] eqn:Hex; [|discriminate].
  intros [= <-] Hr Hs Ht Hi.
  pose proof (exchanges_nth _ _ _ _ _ _ _ _ Hex) as Hr'. simpl in Hr'. subst r.
  assert (Hc : continues (api i q) = Some (Response.next_page_token d)).
  { rewrite Hr. unfold continues. apply status_ok_iff in Hs. now rewrite Hs, Ht. }
  pose proof (exchanges_next _ _ _ _ _ _ _ _ _ Hex Hc ltac:(lia)) as Hnext.
  eexists. rewrite nth_error_map, Hnext. split; reflexivity.
Qed.

Lemma next_page_is_requested_witness :
  let reqs := requests_of (fst (fetch_all_restaurants two_page_api (1 # 1) (2 # 1)
                                  (20 # 1) "key")) in
  exists next, nth_error reqs 1 = Some next
               /\ Params.pagetoken next = Some "token-2".
Proof.
  intros reqs.
  apply (next_page_is_requested two_page_api (1 # 1) (2 # 1) (20 # 1) "key" 0
           (Params.Make "key" "restaurant" "restaurant"
                        (Some (1 # 1, 2 # 1)) (Some 32186%Z) None)
           (Response.Make (Some "OK") None
              (Some [ Place (Some "Joe's Grill") (Some (48 # 10)) (Some 1000%Z)
                            None (Some ["bar"]);
                      Place (Some "Harbour Inn") None None None
                            (Some ["lodging"; "restaurant"]) ])
              (Some "token-2"))).
  - vm_compute. reflexivity.
  - reflexivity.
  - left. reflexivity.
  - reflexivity.
  - lia.
Defined.

(** X20. The diagnostics add up: the counts reported as filtered out plus
    the number of restaurants returned equal the number of results of the
    pages that were answered with status "OK" or "ZERO_RESULTS". *)
Theorem filtered_out_accounting
    (api : nat -> Params.t -> http_result) (lat lng radius_miles : Q)
    (api_key : string) :
  let run := fetch_all_restaurants api lat lng radius_miles api_key in
  (filtered_out_total (fst run) + List.length (snd run))%nat
  = results_total api 0 (requests_of (fst run)).
Proof.
  intros run. unfold run. rewrite fetch_requests, fetch_exchanges. cbn [fst snd].
  rewrite filtered_out_total_app.
  rewrite <- (accounting_render api api_key 3 0).
  destruct (50000 <? miles_to_meters radius_miles)%Z; reflexivity.
Qed.

(** ** Geocoder *)

Lemma lookup_In {V : Type} key (d : list (string * V)) v :
  PyList.lookup key d = Some v -> In (key, v) d.
Proof.
  induction d as [|[k w] d IH]; simpl; [discriminate|].
  destruct (String.eqb_spec key k) as [-> | Hne].
  - intros [= ->]. auto.
  - auto.
Qed.

Lemma lookup_unique {V : Type} key (d : list (string * V)) v :
  List.NoDup (PyList.keys d) -> In (key, v) d -> PyList.lookup key d = Some v.
Proof.
  induction d as [|[k w] d IH]; simpl; [contradiction|].
  intros Hnd Hin. apply List.NoDup_cons_iff in Hnd as [Hk Hnd].
  destruct (String.eqb_spec key k) as [-> | Hne].
  - destruct Hin as [[= ->] | Hin]; [reflexivity|].
    exfalso. apply Hk. apply (in_map fst) in Hin. exact Hin.
  - destruct Hin as [[= -> ->] | Hin]; [contradiction|]. auto.
Qed.

Lemma city_names_distinct : List.NoDup (PyList.keys CITY_COORDINATES).
Proof.
  simpl. repeat (apply List.NoDup_cons; [simpl; intuition discriminate|]).
  apply List.NoDup_nil.
Qed.

Lemma city_table_checked :
  forallb (fun entry : string * (Q * Q) =>
             PyStr.truthy (fst entry)
             && String.eqb (PyStr.lower (fst entry)) (fst entry)
             && Qle_bool (- (90 # 1)) (fst (snd entry))
             && Qle_bool (fst (snd entry)) (90 # 1)
             && Qle_bool (- (180 # 1)) (snd (snd entry))
             && Qle_bool (snd (snd entry)) (180 # 1))
          CITY_COORDINATES = true.
Proof. vm_compute. reflexivity. Qed.

Lemma city_table_entry k lat lng :
  In (k, (lat, lng)) CITY_COORDINATES ->
  PyStr.truthy k = true /\ PyStr.lower k = k
  /\ (- (90 # 1) <= lat)%Q /\ (lat <= 90 # 1)%Q
  /\ (- (180 # 1) <= lng)%Q /\ (lng <= 180 # 1)%Q.
Proof.
  intros Hin. pose proof city_table_checked as H.
  rewrite forallb_forall in H. specialize (H _ Hin). cbn [fst snd] in H.
  rewrite !andb_true_iff, !Qle_bool_iff, String.eqb_eq in H. tauto.
Qed.

Lemma parse_coords_in_range coords lat lng location_name :
  parse_coords coords = inr (lat, lng, location_name) ->
  (- (90 # 1) <= lat)%Q /\ (lat <= 90 # 1)%Q
  /\ (- (180 # 1) <= lng)%Q /\ (lng <= 180 # 1)%Q.
Proof.
  unfold parse_coords.
  destruct (PyList.split "," coords) as [|token1 [|token2 [|token3 rest]]];
    try discriminate.
  destruct (PyNum.float (PyNum.strip token1)) as [x|]; [|discriminate].
  destruct (PyNum.float (PyNum.strip token2)) as [y|]; [|discriminate].
  destruct (PyNum.between _ x _) eqn:Hx; [|discriminate].
  destruct (PyNum.between _ y _) eqn:Hy; [|discriminate].
  cbn [negb orb]. intros [= <- <- _].
  apply between_finite in Hx as (_ & Hx1 & Hx2).
  apply between_finite in Hy as (_ & Hy1 & Hy2). auto.
Qed.

(** X21. Whichever way a location is resolved (coordinates, city name or
    default), the latitude lies in [-90, 90] and the longitude in
    [-180, 180], and nothing has been printed. *)
Theorem resolved_location_in_range
    (city coords : option string) (out : trace) (lat lng : Q) (location_name : label) :
  get_location city coords = (out, Returned (lat, lng, location_name)) ->
  out = []
  /\ (- (90 # 1) <= lat)%Q /\ (lat <= 90 # 1)%Q
  /\ (- (180 # 1) <= lng)%Q /\ (lng <= 180 # 1)%Q.
Proof.
  unfold get_location.
  destruct (PyStr.truthy_opt coords).
  - destruct (parse_coords _) as [e | [[lat' lng'] l]] eqn:Hp; [discriminate|].
    intros [= <- <- <- <-]. split; [reflexivity|].
    eapply parse_coords_in_range. exact Hp.
  - destruct (PyStr.truthy_opt city).
    + destruct (PyList.lookup _ _) as [[lat' lng']|] eqn:Hl; [|discriminate].
      intros [= <- <- <- _]. split; [reflexivity|].
      apply lookup_In in Hl. apply city_table_entry in Hl. tauto.
    + cbn. intros [= <- <- <- _]. split; [reflexivity|].
      unfold Qle. simpl. lia.
Qed.

Lemma resolved_location_in_range_witness :
  (- (90 # 1) <= 476 # 10)%Q /\ (476 # 10 <= 90 # 1)%Q
  /\ (- (180 # 1) <= - (1223 # 10))%Q /\ (- (1223 # 10) <= 180 # 1)%Q.
Proof.
  apply (resolved_location_in_range (Some "Atlantis") (Some "47.6, -122.3") []
           (476 # 10) (- (1223 # 10)) (LabelCoords (476 # 10) (- (1223 # 10)))).
  reflexivity.
Defined.

(** X22. Every name of the city table resolves to its own coordinates,
    however the name is capitalised, when no coordinates are given; the
    label is the name as typed, in title case, and nothing is printed. *)
Theorem known_city_resolves
    (city : string) (coords : option string) (known : string) (lat lng : Q) :
  In (known, (lat, lng)) CITY_COORDINATES ->
  PyStr.lower city = known ->
  PyStr.truthy_opt coords = false ->
  get_location (Some city) coords
  = ([], Returned (lat, lng, LabelText (PyStr.title city))).
Proof.
  intros Hin Hlower Hcoords.
  destruct (city_table_entry _ _ _ Hin) as (Hk & _).
  assert (Hcity : PyStr.truthy city = true).
  { destruct city; [|reflexivity]. simpl in Hlower. subst known. discriminate. }
  unfold get_location. rewrite Hcoords. cbn [PyStr.truthy_opt get].
  rewrite Hcity, Hlower.
  rewrite (lookup_unique known CITY_COORDINATES (lat, lng) city_names_distinct Hin).
  reflexivity.
Qed.

Lemma known_city_resolves_witness :
  get_location (Some "San FRANCISCO") None
  = ([], Returned (377749 # 10000, - (1224194 # 10000), LabelText "San Francisco")).
Proof.
  apply (known_city_resolves "San FRANCISCO" None "san francisco").
  - simpl. tauto.
  - reflexivity.
  - reflexivity.
Defined.

Lemma split_length sep s :
  List.length (PyList.split sep s) = S (count_char sep s).
Proof.
  induction s as [|c s IH]; [reflexivity|].
  cbn [PyList.split count_char]. destruct (Ascii.eqb c sep).
  - cbn [List.length]. now rewrite IH.
  - destruct (PyList.split sep s) as [|w ws]; [discriminate IH|].
    cbn [List.length] in *. lia.
Qed.

(** X23. A non-empty coordinate string that does not hold exactly one comma
    is rejected for its format, with exit status 1, before any number is
    read and whatever city is given. *)
Theorem wrong_comma_count_rejected (city : option string) (coords : string) :
  PyStr.truthy coords = true ->
  count_char "," coords <> 1%nat ->
  get_location city (Some coords)
  = ([Print (ErrorParsingCoordinates CoordinatesFormat)], Exited 1).
Proof.
  intros Hgiven Hcommas. unfold get_location. cbn [PyStr.truthy_opt get].
  rewrite Hgiven. unfold parse_coords.
  pose proof (split_length "," coords) as Hlen.
  destruct (PyList.split "," coords) as [|t1 [|t2 [|t3 rest]]]; try reflexivity.
  cbn [List.length] in Hlen. lia.
Qed.

Lemma wrong_comma_count_rejected_witness :
  get_location (Some "seattle") (Some "47.6;-122.3")
  = ([Print (ErrorParsingCoordinates CoordinatesFormat)], Exited 1).
Proof.
  apply wrong_comma_count_rejected.
  - reflexivity.
  - simpl. lia.
Defined.

(** X24. The words that [float] reads as a number without being one, "nan"
    and the infinities, are rejected as out of range rather than as
    malformed: if either token reads as such a value, the error is the
    range error. *)
Theorem non_finite_coordinates_rejected
    (city : option string) (coords token1 token2 : string) (x y : PyNum.pyfloat) :
  PyStr.truthy coords = true ->
  PyList.split "," coords = [token1; token2] ->
  PyNum.float (PyNum.strip token1) = Some x ->
  PyNum.float (PyNum.strip token2) = Some y ->
  not_finite x \/ not_finite y ->
  get_location city (Some coords)
  = ([Print (ErrorParsingCoordinates InvalidRange)], Exited 1).
Proof.
  intros Hgiven Hsplit Hx Hy Hnf. unfold get_location. cbn [PyStr.truthy_opt get].
  rewrite Hgiven. unfold parse_coords. rewrite Hsplit, Hx, Hy.
  destruct Hnf as [Hnf | Hnf].
  - destruct x; [contradiction| |]; reflexivity.
  - destruct y; [contradiction| |]; cbn [PyNum.between];
      rewrite orb_true_r; reflexivity.
Qed.

Lemma non_finite_coordinates_rejected_witness :
  get_location None (Some "nan, -Infinity")
  = ([Print (ErrorParsingCoordinates InvalidRange)], Exited 1).
Proof.
  apply (non_finite_coordinates_rejected None "nan, -Infinity" "nan" " -Infinity"
           PyNum.NaN (PyNum.Infinity true)).
  - reflexivity.
  - reflexivity.
  - reflexivity.
  - reflexivity.
  - left. exact I.
Defined.

(** ** The header of the listing *)

Lemma counts_app t1 t2 : counts (t1 ++ t2) = counts t1 ++ counts t2.
Proof.
  induction t1 as [|[m|z|p] t1 IH]; simpl; [reflexivity| | |]; rewrite ?IH; auto.
  destruct m; simpl; auto.
Qed.

Lemma counts_report r : counts (report r) = [].
Proof.
  destruct r as [e|d]; simpl; [reflexivity|].
  destruct (status_ok _); simpl.
  - destruct (_ <? _)%nat; reflexivity.
  - destruct (PyStr.truthy_opt _); reflexivity.
Qed.

Lemma counts_render k ex : counts (render k ex) = [].
Proof.
  revert k. induction ex as [|[p r] ex IH]; intros k; [reflexivity|].
  cbn [render]. rewrite !counts_app, counts_report, IH.
  unfold prelude. destruct (k =? 0)%nat; reflexivity.
Qed.

Lemma counts_fetch api lat lng radius_miles api_key :
  counts (fst (fetch_all_restaurants api lat lng radius_miles api_key)) = [].
Proof.
  rewrite fetch_exchanges. cbn [fst]. rewrite counts_app, counts_render.
  destruct (_ <? _)%Z; reflexivity.
Qed.

Lemma counts_display_entries show_types idx l :
  counts (display_entries show_types idx l) = [].
Proof.
  revert idx. induction l as [|r l IH]; intros idx; [reflexivity|].
  cbn [display_entries].
  destruct (display_entry_shape show_types idx r)
    as (type_line & address & -> & Htype & _).
  rewrite counts_app, IH. cbn [app counts].
  rewrite counts_app.
  destruct Htype as [-> | [shown ->]]; reflexivity.
Qed.

(** X25. In a run whose location is resolved, the header reports as fetched
    the number of restaurants the fetcher returned and as matched the
    number of restaurants ranked, which is never more. *)
Theorem header_counts
    (api : nat -> Params.t -> http_result) (args : arguments)
    (lat lng : Q) (location_name : label) :
  get_location (args_city args) (args_coords args)
  = ([], Returned (lat, lng, location_name)) ->
  let fetched := snd (fetch_all_restaurants api lat lng (args_radius args)
                                            (args_api_key args)) in
  let ranked := filter_and_rank_restaurants fetched (args_rating args)
                                            (args_reviews args) in
  counts (fst (main api args)) = [(List.length fetched, List.length ranked)]
  /\ (List.length ranked <= List.length fetched)%nat.
Proof.
  intros Hloc fetched ranked. split.
  - unfold main. rewrite Hloc.
    pose proof (counts_fetch api lat lng (args_radius args) (args_api_key args)) as Hc.
    unfold ranked, fetched.
    destruct (fetch_all_restaurants api lat lng (args_radius args) (args_api_key args))
      as [fetch_log all].
    cbn [fst snd] in *. cbn [app counts].
    rewrite counts_app, Hc. cbn [app counts].
    unfold display_results. cbn [app counts]. f_equal.
    destruct (filter_and_rank_restaurants all (args_rating args) (args_reviews args));
      [reflexivity|].
    cbn [app counts]. apply counts_display_entries.
  - unfold ranked, filter_and_rank_restaurants.
    rewrite (Permutation_length (sorted_perm _ _ _ _)).
    apply filter_length_le.
Qed.

Lemma header_counts_witness :
  counts (fst (main two_page_api
                    (Arguments "key" None None (20 # 1) (49 # 10) 300 false 20)))
  = [(1%nat, 0%nat)].
Proof.
  destruct (header_counts two_page_api
              (Arguments "key" None None (20 # 1) (49 # 10) 300 false 20)
              (476062 # 10000) (- (1223321 # 10000)) (LabelText "Seattle")
              ltac:(reflexivity)) as [H _].
  exact H.
Defined.
